(** * Country API service: refresh pipeline, store and query endpoints

    A shallow embedding of [main.py].  The PostgreSQL table [countries] is a
    finite map keyed by the unique column [name]; the two remote services, the
    clock, the random generator and the disk are explicit inputs of the
    handlers.  A Python [float] is an IEEE 754 binary64 number of the
    Standard Library's specification; a numeric column holds the exact value
    of what was written into it. *)

From Stdlib Require Import ZArith QArith Qround String Ascii SpecFloat.
From stdpp Require Import base option list sorting gmap strings fin_maps.

Local Open Scope string_scope.
Local Open Scope Z_scope.

(** ** Python and SQL string primitives *)

Module Text.

(** [str.lower()] restricted to the ASCII letters; every other byte is kept. *)
Definition lower_ascii (c : ascii) : ascii :=
  if (("A" <=? c) && (c <=? "Z"))%char
  then ascii_of_N (N_of_ascii c + 32)
  else c.

Fixpoint lower (s : string) : string :=
  match s with
  | EmptyString => EmptyString
  | String c s' => String (lower_ascii c) (lower s')
  end.

(** Python truthiness of a [str]. *)
Definition truthy (s : string) : bool :=
  match s with EmptyString => false | String _ _ => true end.

Fixpoint drop_prefix (old s : string) : option string :=
  match old, s with
  | EmptyString, _ => Some s
  | String a old', String b s' =>
      if (a =? b)%char then drop_prefix old' s' else None
  | String _ _, EmptyString => None
  end.

(** [s.replace(old, new)] for a non-empty [old]: occurrences are replaced
    left to right without overlap.  [skip] counts the bytes of an occurrence
    still to be consumed. *)
Fixpoint replace_from (skip : nat) (old new s : string) : string :=
  match s with
  | EmptyString => EmptyString
  | String c s' =>
      match skip with
      | S k => replace_from k old new s'
      | O =>
          match drop_prefix old s with
          | Some _ => new +:+ replace_from (String.length old - 1) old new s'
          | None => String c (replace_from O old new s')
          end
      end
  end.

Definition replace (old new s : string) : string := replace_from O old new s.

(** *** The [LIKE] operator of PostgreSQL

    [%] matches any run of characters, [_] any one character and a
    backslash makes the next pattern character literal.  A pattern that
    ends in a lone backslash is rejected by the server once matching
    reaches it. *)
Inductive like_result := LikeTrue | LikeFalse | LikeError.

Definition is_meta (c : ascii) : bool :=
  ((c =? "%") || (c =? "_") || (c =? "\"))%char.

Fixpoint like_match (p : string) : string -> like_result :=
  match p with
  | EmptyString =>
      fun t => match t with EmptyString => LikeTrue | String _ _ => LikeFalse end
  | String c p' =>
      if (c =? "%")%char then
        fix star (t : string) : like_result :=
          match like_match p' t with
          | LikeFalse =>
              match t with
              | EmptyString => LikeFalse
              | String _ t' => star t'
              end
          | r => r
          end
      else if (c =? "_")%char then
        fun t =>
          match t with
          | EmptyString => LikeFalse
          | String _ t' => like_match p' t'
          end
      else if (c =? "\")%char then
        match p' with
        | EmptyString =>
            fun t =>
              match t with EmptyString => LikeFalse | String _ _ => LikeError end
        | String d p'' =>
            fun t =>
              match t with
              | EmptyString => LikeFalse
              | String x t' =>
                  if (x =? d)%char then like_match p'' t' else LikeFalse
              end
        end
      else
        fun t =>
          match t with
          | EmptyString => LikeFalse
          | String x t' =>
              if (x =? c)%char then like_match p' t' else LikeFalse
          end
  end.

(** [text ILIKE pattern]: both sides are folded to lower case first. *)
Definition ilike (text pattern : string) : like_result :=
  like_match (lower pattern) (lower text).

Fixpoint has_meta (s : string) : bool :=
  match s with
  | EmptyString => false
  | String c s' => is_meta c || has_meta s'
  end.

End Text.

(** ** Outcome of a request handler *)

Inductive Detail :=
| SourceDetail (error details : string)
| ValidationDetail (error field reason : string)
| ErrorDetail (error : string).

(** A handler returns (HTTP 200), raises an [HTTPException] with a status and
    a detail, or lets another exception escape (HTTP 500). *)
Inductive Response (A : Type) :=
| Returned (a : A)
| HTTPException (status_code : Z) (detail : Detail)
| Uncaught (exn : string).

Arguments Returned {A} a.
Arguments HTTPException {A} status_code detail.
Arguments Uncaught {A} exn.

(** Re-raise the exception of a failed step at another result type. *)
Definition reraise {A B} (m : Response A) (default : Response B) : Response B :=
  match m with
  | Returned _ => default
  | HTTPException s d => HTTPException s d
  | Uncaught e => Uncaught e
  end.

(** ** Python numbers *)

Module Py.

(** A [float] is a binary64 number: 53 bits of precision, infinities at the
    exponent 1024, rounding to nearest with ties to even. *)
Definition float : Type := spec_float.
Definition prec : Z := 53.
Definition emax : Z := 1024.

(** A JSON number as [response.json()] returns it: an [int] when the literal
    has no fraction or exponent, a [float] otherwise. *)
Inductive number := Int (z : Z) | Float (x : float).

(** [bool(x)]: [0] and [0.0] are false, every other number (a NaN or an
    infinity too) is true. *)
Definition truthy (x : number) : bool :=
  match x with
  | Int z => negb (z =? 0)
  | Float (S754_zero _) => false
  | Float _ => true
  end.

(** [float(n)], correctly rounded; [OverflowError] when [n] is too large. *)
Definition float_of_int (n : Z) : Response float :=
  match binary_normalize prec emax n 0 false with
  | S754_infinity _ => Uncaught "OverflowError"
  | x => Returned x
  end.

(** An [int] as an exact binary number with an unbounded mantissa. *)
Definition exact (n : Z) : float :=
  match n with
  | Z0 => S754_zero false
  | Zpos p => S754_finite false p 0
  | Zneg p => S754_finite true p 0
  end.

(** [a / b] for two [int]: the float nearest to the exact quotient,
    [OverflowError] when it is too large for a float. *)
Definition int_true_divide (a b : Z) : Response float :=
  match SFdiv prec emax (exact a) (exact b) with
  | S754_infinity _ => Uncaught "OverflowError"
  | x => Returned x
  end.

(** [a / b] for an [int] [a]: division by zero raises; an [int] divisor is
    divided exactly and rounded once; with a [float] divisor [a] is converted
    first and the quotient is the IEEE division, which may be an infinity or
    a NaN without an exception. *)
Definition true_divide (a : Z) (b : number) : Response float :=
  if truthy b then
    match b with
    | Int z => int_true_divide a z
    | Float y =>
        match float_of_int a with
        | Returned x => Returned (SFdiv prec emax x y)
        | failed => failed
        end
    end
  else Uncaught "ZeroDivisionError".

End Py.

(** ** Data *)

(** The JSON documents of the two remote services, with the fields that
    [refresh_countries] reads through [.get].  In a country and a currency a
    missing key and a JSON [null] both read as [None]; [rates] is [None] when
    the body has no such key. *)
Module Raw.

Record currency := { code : option string }.

Record country := {
  name : option string;
  capital : option string;
  region : option string;
  population : option Z;
  flag : option string;
  currencies : option (list currency)
}.

Record rates_body := { rates : option (gmap string Py.number) }.

(** [exchange_rate_data.get("rates", {})] *)
Definition rates_or_empty (b : rates_body) : gmap string Py.number :=
  match rates b with Some r => r | None => ∅ end.

End Raw.

(** The table [countries]: the columns of the [INSERT] statement, in the order
    of the tuples that [SELECT *] returns ([result[0]] .. [result[9]]), with
    the unique column [name] as the key of the map. *)
Module Store.

(** The value of a numeric column: a rational, an infinity or NaN. *)
Inductive numeric := Fin (q : Q) | PosInf | NegInf | NaN.

(** The exact value of a float, as a reduced fraction. *)
Definition of_float (x : Py.float) : numeric :=
  match x with
  | S754_zero _ => Fin 0
  | S754_infinity false => PosInf
  | S754_infinity true => NegInf
  | S754_nan => NaN
  | S754_finite s m e =>
      let v := match e with
               | Z0 => inject_Z (Zpos m)
               | Zpos p => inject_Z (Zpos m * 2 ^ Zpos p)
               | Zneg p => Qmake (Zpos m) (2 ^ p)
               end in
      Fin (Qred (if s then Qopp v else v))
  end.

(** Modelled from the spec: the table definition is not part of the source;
    the spec calls the columns [exchange_rate] and [estimated_gdp] decimal.
    A number written into such a column is kept with its exact value. *)
Definition of_number (x : Py.number) : numeric :=
  match x with
  | Py.Int z => Fin (inject_Z z)
  | Py.Float y => of_float y
  end.

Record fields := {
  id : Z;
  capital : option string;
  region : option string;
  population : Z;
  currency_code : option string;
  exchange_rate : option numeric;
  estimated_gdp : option numeric;
  flag_url : option string;
  last_refreshed_at : string
}.

(** A row as a query returns it: the name and the other columns. *)
Definition row : Type := string * fields.

Record table := { rows : gmap string fields; next_id : Z }.

Definition empty_table : table := {| rows := ∅; next_id := 1 |}.

Definition set_id (i : Z) (f : fields) : fields :=
  {| id := i; capital := capital f; region := region f;
     population := population f; currency_code := currency_code f;
     exchange_rate := exchange_rate f; estimated_gdp := estimated_gdp f;
     flag_url := flag_url f; last_refreshed_at := last_refreshed_at f |}.

(** Modelled from the spec: the table definition (the surrogate [id] and
    its default) is not part of the source; the id is assigned by the store
    on first insert and stays the same across updates.

    [INSERT ... ON CONFLICT (name) DO UPDATE SET ...]: every column but
    [id] is overwritten when the name exists, a new row is added otherwise.
    The [id] of the argument is ignored. *)
Definition upsert (name : string) (f : fields) (t : table) : table :=
  match rows t !! name with
  | Some old =>
      {| rows := <[name := set_id (id old) f]> (rows t); next_id := next_id t |}
  | None =>
      {| rows := <[name := set_id (next_id t) f]> (rows t);
         next_id := next_id t + 1 |}
  end.

(** [SELECT * FROM countries], in the order of the store. *)
Definition select_all (t : table) : list row := map_to_list (rows t).

(** [SELECT COUNT( * ) FROM countries] *)
Definition count (t : table) : Z := Z.of_nat (size (rows t)).

(** [DELETE FROM countries WHERE name = %s] *)
Definition delete_name (name : string) (t : table) : table :=
  {| rows := delete name (rows t); next_id := next_id t |}.

(** The value of a [WHERE] condition on each row; an error on one row
    fails the whole statement. *)
Fixpoint select_where (cond : row -> Text.like_result) (l : list row)
  : option (list row) :=
  match l with
  | [] => Some []
  | r :: l' =>
      match cond r with
      | Text.LikeError => None
      | Text.LikeTrue => cons r <$> select_where cond l'
      | Text.LikeFalse => select_where cond l'
      end
  end.

(** Order of the values: the rationals by value, between the two
    infinities, and NaN above everything. *)
Definition numeric_le (a b : numeric) : Prop :=
  match a, b with
  | _, NaN => True
  | NaN, _ => False
  | _, PosInf => True
  | PosInf, _ => False
  | NegInf, _ => True
  | _, NegInf => False
  | Fin x, Fin y => Qle_bool x y = true
  end.

(** Order of a nullable numeric column: PostgreSQL sorts a null as larger
    than every value, so nulls come last under [ASC] and first under
    [DESC]. *)
Definition sql_le (a b : option numeric) : Prop :=
  match a, b with
  | _, None => True
  | None, Some _ => False
  | Some x, Some y => numeric_le x y
  end.

Definition gdp_asc (r1 r2 : row) : Prop :=
  sql_le (estimated_gdp r1.2) (estimated_gdp r2.2).

Definition gdp_desc (r1 r2 : row) : Prop :=
  sql_le (estimated_gdp r2.2) (estimated_gdp r1.2).

#[global] Instance numeric_le_dec a b : Decision (numeric_le a b).
Proof. destruct a, b; simpl; apply _. Defined.

#[global] Instance sql_le_dec a b : Decision (sql_le a b).
Proof. destruct a, b; simpl; apply _. Defined.

#[global] Instance gdp_asc_dec r1 r2 : Decision (gdp_asc r1 r2).
Proof. unfold gdp_asc; apply _. Defined.

#[global] Instance gdp_desc_dec r1 r2 : Decision (gdp_desc r1 r2).
Proof. unfold gdp_desc; apply _. Defined.

Definition order_by_gdp_asc (l : list row) : list row := merge_sort gdp_asc l.
Definition order_by_gdp_desc (l : list row) : list row := merge_sort gdp_desc l.

End Store.

(** ** The random generator

    The generator state is the sequence of raw draws still to come;
    [randint a b] consumes one draw and maps it into [a..b]. *)
Definition Random : Type := nat -> Z.

Definition randint (a b : Z) (g : Random) : Z * Random :=
  (a + g O mod (b - a + 1), fun n => g (S n)).

(** ** The summary image *)

Inductive Segment := Str (s : string) | Int (z : Z) | Num (q : Store.numeric).

Record DrawText := { xy : Z * Z; text : list Segment; fill : string }.

Record Image := {
  mode : string;
  image_size : Z * Z;
  color : string;
  drawn : list DrawText
}.

(** The file [cache/summary.png]: a complete image, or what an interrupted
    write leaves behind. *)
Inductive File := Png (img : Image) | Damaged.

(** The operation that the disk refuses, if any.  After a refused write the
    file that [save] had just created is left behind or removed, which
    depends on the imaging library. *)
Inductive DiskFault :=
| NoFault
| MakedirsFails
| OpenFails
| WriteFails (leaves_new_file : bool).

Record Disk := {
  cache_dir : bool;
  summary_png : option File;
  fault : DiskFault
}.

(** [round(gdp, 2)]: to the nearest hundredth, ties to even. *)
Definition round_half_even (q : Q) : Z :=
  let f := Qfloor q in
  match Qcompare (q - inject_Z f) (1 # 2) with
  | Lt => f
  | Gt => f + 1
  | Eq => if Z.even f then f else f + 1
  end.

Definition round2 (x : Store.numeric) : Store.numeric :=
  match x with
  | Store.Fin q => Store.Fin (Qmake (round_half_even (q * inject_Z 100)) 100)
  | other => other
  end.

Definition has_gdp (r : Store.row) : bool :=
  match Store.estimated_gdp r.2 with Some _ => true | None => false end.

(** [SELECT name, estimated_gdp FROM countries WHERE estimated_gdp IS NOT NULL
    ORDER BY estimated_gdp DESC LIMIT 5] *)
Definition top_gdp (t : Store.table) : list (string * Store.numeric) :=
  omap (fun r : Store.row => pair r.1 <$> Store.estimated_gdp r.2)
       (take 5 (Store.order_by_gdp_desc (List.filter has_gdp (Store.select_all t)))).

Fixpoint draw_top (y_offset : Z) (l : list (string * Store.numeric)) : list DrawText :=
  match l with
  | [] => []
  | (name, gdp) :: l' =>
      {| xy := (50, y_offset); text := [Str name; Str ": "; Num (round2 gdp)];
         fill := "black" |}
      :: draw_top (y_offset + 25) l'
  end.

Definition summary_image (t : Store.table) (last_refreshed_at : string) : Image :=
  let total_countries := Store.count t in
  {| mode := "RGB"; image_size := (800, 400); color := "white";
     drawn :=
       [ {| xy := (50, 50); text := [Str "Country Summary"]; fill := "black" |};
         {| xy := (50, 100);
            text := [Str "Total Number Of Countries: "; Int total_countries];
            fill := "black" |} ]
       ++ [ {| xy := (50, 140); text := [Str "Top 5 countries by estimated GDP"];
               fill := "black" |} ]
       ++ draw_top 175 (top_gdp t)
       ++ [ {| xy := (50, 320);
               text := [Str "Last Refreshed At: "; Str last_refreshed_at];
               fill := "black" |} ] |}.

(** [if not os.path.exists("cache"): os.makedirs("cache")] *)
Definition ensure_cache_dir (d : Disk) : option Disk :=
  if cache_dir d then Some d
  else match fault d with
       | MakedirsFails => None
       | _ => Some {| cache_dir := true; summary_png := summary_png d;
                      fault := fault d |}
       end.

(** [img.save("cache/summary.png")]: the file is opened for writing, which
    empties it, and the image is written.  A refused write leaves a damaged
    file where there was one. *)
Definition save_image (img : Image) (d : Disk) : bool * Disk :=
  match fault d with
  | OpenFails => (false, d)
  | WriteFails leaves_new_file =>
      (false,
       {| cache_dir := cache_dir d;
          summary_png :=
            match summary_png d with
            | Some _ => Some Damaged
            | None => if leaves_new_file then Some Damaged else None
            end;
          fault := fault d |})
  | _ =>
      (true,
       {| cache_dir := cache_dir d; summary_png := Some (Png img);
          fault := fault d |})
  end.

(** The two steps; [false] when one of them raised [OSError]. *)
Definition save_summary (img : Image) (d : Disk) : bool * Disk :=
  match ensure_cache_dir d with
  | None => (false, d)
  | Some d1 => save_image img d1
  end.

(** ** POST /countries/refresh *)

Record Env := {
  rest_countries : option (list Raw.country);
  exchange_rate_api : option Raw.rates_body;
  utc_now : string;
  random : Random
}.

Record World := { db : Store.table; disk : Disk }.

(** Lines 76-86: currency code, exchange rate and estimated GDP of one
    country, as the Python values they are; the generator is advanced only
    when a multiplier is drawn, and the division of line 86 may raise. *)
Definition currency_logic (population : Z) (currencies : option (list Raw.currency))
    (exchange_rate_data : Raw.rates_body) (g : Random)
  : Response (option string * option Py.number * option Py.float * Random) :=
  match currencies with
  | Some (c0 :: _) =>
      let currency_code := Raw.code c0 in
      match currency_code with
      | Some code =>
          if Text.truthy code then
            let exchange_rate := Raw.rates_or_empty exchange_rate_data !! code in
            match exchange_rate with
            | Some rate =>
                if Py.truthy rate then
                  let (m, g') := randint 1000 2000 g in
                  match Py.true_divide (population * m) rate with
                  | Returned estimated_gdp =>
                      Returned (currency_code, Some rate, Some estimated_gdp, g')
                  | HTTPException s d => HTTPException s d
                  | Uncaught e => Uncaught e
                  end
                else Returned (currency_code, Some rate, None, g)
            | None => Returned (currency_code, None, None, g)
            end
          else Returned (currency_code, None, None, g)
      | None => Returned (None, None, None, g)
      end
  | _ => Returned (None, None, None, g)
  end.

Definition validation_failed {A} (field reason : string) : Response A :=
  HTTPException 400 (ValidationDetail "Validation failed" field reason).

(** The body of [for country in country_data], on the open transaction. *)
Fixpoint refresh_loop (last_refreshed_at : string)
    (exchange_rate_data : Raw.rates_body) (country_data : list Raw.country)
    (tx : Store.table) (g : Random) : Response (Store.table * Random) :=
  match country_data with
  | [] => Returned (tx, g)
  | country :: rest =>
      match Raw.name country with
      | None => validation_failed "name" "is required"
      | Some name =>
          if negb (Text.truthy name) then validation_failed "name" "is required"
          else
            match Raw.population country with
            | None => validation_failed "population" "must be non-negative"
            | Some population =>
                if population <? 0
                then validation_failed "population" "must be non-negative"
                else
                  match currency_logic population (Raw.currencies country)
                                       exchange_rate_data g with
                  | Returned (currency_code, exchange_rate, estimated_gdp, g') =>
                      let tx' :=
                        Store.upsert name
                          {| Store.id := 0;
                             Store.capital := Raw.capital country;
                             Store.region := Raw.region country;
                             Store.population := population;
                             Store.currency_code := currency_code;
                             Store.exchange_rate :=
                               Store.of_number <$> exchange_rate;
                             Store.estimated_gdp :=
                               Store.of_float <$> estimated_gdp;
                             Store.flag_url := Raw.flag country;
                             Store.last_refreshed_at := last_refreshed_at |} tx in
                      refresh_loop last_refreshed_at exchange_rate_data rest tx' g'
                  | HTTPException s d => HTTPException s d
                  | Uncaught e => Uncaught e
                  end
            end
      end
  end.

Definition source_unavailable {A} (details : string) : Response A :=
  HTTPException 503 (SourceDetail "External data source unavailable" details).

(** The committed table changes at [conn.commit()] only: an exception raised
    before it leaves the connection uncommitted and the table as it was. *)
Definition refresh_countries (env : Env) (w : World) : Response unit * World :=
  let tx := db w in
  match rest_countries env with
  | None => (source_unavailable "Could not fetch data from Rest Countries", w)
  | Some country_data =>
      match exchange_rate_api env with
      | None =>
          (source_unavailable "Could not fetch data from Exchange Rate API", w)
      | Some exchange_rate_data =>
          let last_refreshed_at := Text.replace "+00:00" "Z" (utc_now env) in
          match refresh_loop last_refreshed_at exchange_rate_data
                             country_data tx (random env) with
          | Returned (tx', _) =>
              let img := summary_image tx' last_refreshed_at in
              match save_summary img (disk w) with
              | (true, d) => (Returned tt, {| db := tx'; disk := d |})
              | (false, d) => (Uncaught "OSError", {| db := tx'; disk := d |})
              end
          | failed => (reraise failed (Returned tt), w)
          end
      end
  end.

(** ** GET /countries *)

(** The pieces appended to [query] after ["SELECT * FROM countries WHERE 1=1"].
    The filter values are spliced into the statement text between quotes
    ([render_clause]); the clauses give the meaning of that text for the
    values that stay inside their quotes, those without a quote or NUL
    character.  A value with a quote ends its literal early and the rest of
    it is read as SQL, which the clauses do not describe. *)
Inductive clause :=
| AndRegionILike (region : string)
| AndCurrencyILike (currency : string)
| OrderByGdp (descending : bool).

Definition render_clause (c : clause) : string :=
  match c with
  | AndRegionILike region => "AND region ILIKE '" +:+ region +:+ "'"
  | AndCurrencyILike currency => "AND currency_code ILIKE '" +:+ currency +:+ "'"
  | OrderByGdp true => "ORDER BY estimated_gdp DESC"
  | OrderByGdp false => "ORDER BY estimated_gdp ASC"
  end.

(** [" ".join(query) + ";"] *)
Definition render_query (q : list clause) : string :=
  String.concat " " ("SELECT * FROM countries WHERE 1=1" :: map render_clause q)
  +:+ ";".

Definition truthy_param (p : option string) : bool :=
  match p with Some s => Text.truthy s | None => false end.

Definition region_clause (region : option string) : list clause :=
  match region with
  | Some r => if Text.truthy r then [AndRegionILike r] else []
  | None => []
  end.

Definition currency_clause (currency : option string) : list clause :=
  match currency with
  | Some c => if Text.truthy c then [AndCurrencyILike c] else []
  | None => []
  end.

Definition sort_clause (sort : option string) : list clause :=
  match sort with
  | Some s =>
      if Text.truthy s then
        if String.eqb (Text.lower s) "gdp_desc" then [OrderByGdp true]
        else if String.eqb (Text.lower s) "gdp_asc" then [OrderByGdp false]
        else []
      else []
  | None => []
  end.

Definition build_query (region currency sort : option string) : list clause :=
  region_clause region ++ currency_clause currency ++ sort_clause sort.

(** A nullable text column under [ILIKE]: a null never satisfies it. *)
Definition ilike_column (v : option string) (pattern : string) : Text.like_result :=
  match v with
  | Some s => Text.ilike s pattern
  | None => Text.LikeFalse
  end.

Definition run_clause (c : clause) (l : list Store.row) : option (list Store.row) :=
  match c with
  | AndRegionILike p =>
      Store.select_where (fun r => ilike_column (Store.region r.2) p) l
  | AndCurrencyILike p =>
      Store.select_where (fun r => ilike_column (Store.currency_code r.2) p) l
  | OrderByGdp true => Some (Store.order_by_gdp_desc l)
  | OrderByGdp false => Some (Store.order_by_gdp_asc l)
  end.

Fixpoint run_query (q : list clause) (l : list Store.row) : option (list Store.row) :=
  match q with
  | [] => Some l
  | c :: q' =>
      match run_clause c l with
      | Some l' => run_query q' l'
      | None => None
      end
  end.

Definition not_found {A} (error : string) : Response A :=
  HTTPException 404 (ErrorDetail error).

(** [cur.execute(...); results = cur.fetchall()] of both branches. *)
Definition fetch_countries (region currency sort : option string) (t : Store.table)
  : option (list Store.row) :=
  if truthy_param region || truthy_param currency || truthy_param sort
  then run_query (build_query region currency sort) (Store.select_all t)
  else Some (Store.select_all t).

Definition get_countries_with_filtering (region currency sort : option string)
    (t : Store.table) : Response (list Store.row) :=
  match fetch_countries region currency sort t with
  | None => Uncaught "DataError"
  | Some [] => not_found "Country not found"
  | Some results => Returned results
  end.

(** ** GET /countries/{name} *)

Definition get_country_by_name (name : string) (t : Store.table)
  : Response Store.row :=
  match Store.select_where (fun r => Text.ilike r.1 name) (Store.select_all t) with
  | None => Uncaught "DataError"
  | Some [] => not_found "Country not found"
  | Some (result :: _) => Returned result
  end.

(** ** DELETE /countries/{name} *)

Definition delete_country_by_name (name : string) (t : Store.table)
  : Response unit * Store.table :=
  match Store.rows t !! name with
  | None => (not_found "Country not found", t)
  | Some _ => (Returned tt, Store.delete_name name t)
  end.

(** ** GET /status *)

(** [SELECT MAX(last_refreshed_at) FROM countries]: null on an empty table. *)
Definition max_last_refreshed_at (t : Store.table) : option string :=
  foldr (fun (r : Store.row) acc =>
           let ts := Store.last_refreshed_at r.2 in
           match acc with
           | Some m => if String.leb ts m then Some m else Some ts
           | None => Some ts
           end) None (Store.select_all t).

Record Status := { total_countries : Z; status_last_refreshed_at : option string }.

Definition get_status (t : Store.table) : Status :=
  {| total_countries := Store.count t;
     status_last_refreshed_at := max_last_refreshed_at t |}.

(** ** GET /countries/image *)

(** The cached file is served when [os.path.exists("cache/summary.png")]. *)
Definition serve_country_image (d : Disk) : Response File :=
  match summary_png d with
  | None => not_found "Summary image not found"
  | Some file => Returned file
  end.

(** ** Vocabulary of the statements *)

(** A fetched record fails validation: the name is missing or empty, or the
    population is missing or negative. *)
Definition name_missing (c : Raw.country) : Prop :=
  Raw.name c = None \/ Raw.name c = Some "".

Definition population_invalid (c : Raw.country) : Prop :=
  match Raw.population c with
  | None => True
  | Some p => p < 0
  end.

Definition fails_validation (c : Raw.country) : Prop :=
  name_missing c \/ population_invalid c.

(** The field that a validation error names is one the record fails on. *)
Definition offending (c : Raw.country) (field : string) : Prop :=
  (field = "name" /\ name_missing c) \/
  (field = "population" /\ population_invalid c).

(** The name is the key of some record of the fetched list. *)
Definition in_batch (n : string) (country_data : list Raw.country) : Prop :=
  Some n ∈ (Raw.name <$> country_data).

#[global] Instance in_batch_dec n country_data : Decision (in_batch n country_data).
Proof. unfold in_batch. apply _. Defined.

(** The row that one iteration of the loop hands to the [INSERT]. *)
Definition inserted_fields (last_refreshed_at : string) (country : Raw.country)
    (population : Z)
    (cl : option string * option Py.number * option Py.float)
  : Store.fields :=
  {| Store.id := 0;
     Store.capital := Raw.capital country;
     Store.region := Raw.region country;
     Store.population := population;
     Store.currency_code := cl.1.1;
     Store.exchange_rate := Store.of_number <$> cl.1.2;
     Store.estimated_gdp := Store.of_float <$> cl.2;
     Store.flag_url := Raw.flag country;
     Store.last_refreshed_at := last_refreshed_at |}.

(** A stored row is the one built from a record of the batch, up to its id. *)
Definition produced_from (last_refreshed_at : string) (rd : Raw.rates_body)
    (country : Raw.country) (n : string) (f : Store.fields) : Prop :=
  Raw.name country = Some n /\
  exists p g i r,
    Raw.population country = Some p /\ 0 <= p /\
    currency_logic p (Raw.currencies country) rd g = Returned r /\
    f = Store.set_id i (inserted_fields last_refreshed_at country p r.1).

(** The records of [pre] come first in the fetched list, right before
    [country], and all of them pass validation. *)
Definition valid_prefix (country_data pre : list Raw.country)
    (country : Raw.country) : Prop :=
  (exists post, country_data = (pre ++ country :: post)%list) /\
  forall x, x ∈ pre -> ~ fails_validation x.

(** For some state of the random generator, the estimate of a record with a
    valid population is too large for a float. *)
Definition estimate_overflows (rd : Raw.rates_body) (country : Raw.country) : Prop :=
  exists p g,
    Raw.population country = Some p /\ 0 <= p /\
    currency_logic p (Raw.currencies country) rd g = Uncaught "OverflowError".

(** The currency code of a row is non-empty and the rate table maps it to a
    non-zero rate. *)
Definition rate_resolved (rd : Raw.rates_body) (f : Store.fields) : Prop :=
  exists code rate,
    Store.currency_code f = Some code /\ code <> "" /\
    Raw.rates_or_empty rd !! code = Some rate /\ Py.truthy rate = true.

(** The currency code of a row is null or no key of the rate table. *)
Definition rate_absent (rd : Raw.rates_body) (f : Store.fields) : Prop :=
  Store.currency_code f = None \/
  exists code,
    Store.currency_code f = Some code /\ Raw.rates_or_empty rd !! code = None.

(** The currency code of a row is non-null and a key of the rate table. *)
Definition code_in_rates (rd : Raw.rates_body) (f : Store.fields) : Prop :=
  exists code,
    Store.currency_code f = Some code /\ is_Some (Raw.rates_or_empty rd !! code).


(** The one timestamp of a refresh: [isoformat()] with its offset replaced. *)
Definition batch_timestamp (env : Env) : string :=
  Text.replace "+00:00" "Z" (utc_now env).

(** Name and estimated GDP of the rows of a response, in order. *)
Definition names_and_gdp (r : Response (list Store.row))
  : list (string * option Store.numeric) :=
  match r with
  | Returned results => (fun x : Store.row => (x.1, Store.estimated_gdp x.2)) <$> results
  | _ => []
  end.

(** The names of the records of a fetched list. *)
Definition batch_names (country_data : list Raw.country) : gset string :=
  list_to_set (omap Raw.name country_data).

(** A stored value that is not zero. *)
Definition nonzero (x : Store.numeric) : Prop :=
  match x with
  | Store.Fin q => ~ (q == 0)%Q
  | _ => True
  end.

(** The invariants of the table: a name is never empty, a population never
    negative, and an estimated GDP comes with a currency code and a non-zero
    exchange rate. *)
Definition row_ok (n : string) (f : Store.fields) : Prop :=
  n <> "" /\ 0 <= Store.population f /\
  (is_Some (Store.estimated_gdp f) ->
   is_Some (Store.currency_code f) /\
   exists rate, Store.exchange_rate f = Some rate /\ nonzero rate).

Definition table_ok (t : Store.table) : Prop :=
  forall n f, Store.rows t !! n = Some f -> row_ok n f.

(** The rate that the table holds for the currency code of a row. *)
Definition rate_lookup (rd : Raw.rates_body) (f : Store.fields)
  : option Store.numeric :=
  match Store.currency_code f with
  | Some code =>
      if Text.truthy code
      then Store.of_number <$> Raw.rates_or_empty rd !! code
      else None
  | None => None
  end.

(** A row passes the filters that were supplied. *)
Definition passes_filters (region currency : option string) (r : Store.row) : Prop :=
  (truthy_param region = true ->
   exists p, region = Some p /\
             ilike_column (Store.region r.2) p = Text.LikeTrue) /\
  (truthy_param currency = true ->
   exists p, currency = Some p /\
             ilike_column (Store.currency_code r.2) p = Text.LikeTrue).

(** The greatest [last_refreshed_at] of a list of rows. *)
Definition max_timestamp (l : list Store.row) : option string :=
  foldr (fun (r : Store.row) acc =>
           let ts := Store.last_refreshed_at r.2 in
           match acc with
           | Some m => if String.leb ts m then Some m else Some ts
           | None => Some ts
           end) None l.

(** The character occurs in the string. *)
Fixpoint has_char (c : ascii) (s : string) : bool :=
  match s with
  | EmptyString => false
  | String x s' => (x =? c)%char || has_char c s'
  end.

(** A filter value that stays inside the quotes it is spliced between and
    reaches the database whole: it has no quote and no NUL character. *)
Definition quote_free (p : option string) : Prop :=
  match p with
  | Some s => has_char "'" s = false /\ has_char "000" s = false
  | None => True
  end.

(** The line of the report for a row: its name and its estimated GDP. *)
Definition report_line (r : Store.row) : option (string * Store.numeric) :=
  pair r.1 <$> Store.estimated_gdp r.2.

(** Descending order of the estimated GDP of the lines of the report. *)
Definition gdp_ge (a b : string * Store.numeric) : Prop :=
  Store.numeric_le b.2 a.2.


(** ** Sample inputs *)

Definition sample_country (n : string) (p : Z) (code : option string) : Raw.country :=
  {| Raw.name := Some n; Raw.capital := None; Raw.region := Some "Africa";
     Raw.population := Some p; Raw.flag := None;
     Raw.currencies := Some [ {| Raw.code := code |} ] |}.

(** 1.5 as a float. *)
Definition one_and_a_half : Py.float := S754_finite false 6755399441055744 (-52).

Definition sample_rates : Raw.rates_body :=
  {| Raw.rates :=
       Some (<["USD" := Py.Int 1]>
             (<["NGN" := Py.Int 1600]>
              (<["ZZZ" := Py.Int 0]>
               (<["TRI" := Py.Int 3]>
                (<["EUR" := Py.Float one_and_a_half]> ∅))))) |}.

Definition sample_batch : list Raw.country :=
  [ sample_country "Nigeria" 200 (Some "NGN");
    sample_country "USA" 300 (Some "USD");
    sample_country "Wakanda" 5 (Some "XYZ");
    sample_country "Zed" 7 (Some "ZZZ") ].

Definition sample_random : Random := fun n => Z.of_nat n + 3.

Definition sample_env (batch : list Raw.country) (rd : Raw.rates_body) : Env :=
  {| rest_countries := Some batch;
     exchange_rate_api := Some rd;
     utc_now := "2025-01-01T00:00:00+00:00";
     random := sample_random |}.

Definition sample_world (broken_disk : bool) : World :=
  {| db := Store.empty_table;
     disk := {| cache_dir := false; summary_png := None;
                fault := if broken_disk then WriteFails true else NoFault |} |}.

Definition nigeria_row : Store.fields :=
  {| Store.id := 1; Store.capital := None; Store.region := Some "Africa";
     Store.population := 200; Store.currency_code := Some "NGN";
     Store.exchange_rate := Some (Store.Fin (1600 # 1));
     Store.estimated_gdp := Some (Store.Fin (1003 # 8));
     Store.flag_url := None;
     Store.last_refreshed_at := "2025-01-01T00:00:00Z" |}.

Definition wakanda_row : Store.fields :=
  {| Store.id := 3; Store.capital := None; Store.region := Some "Africa";
     Store.population := 5; Store.currency_code := Some "XYZ";
     Store.exchange_rate := None; Store.estimated_gdp := None;
     Store.flag_url := None;
     Store.last_refreshed_at := "2025-01-01T00:00:00Z" |}.

Definition india_upper_row : Store.fields :=
  {| Store.id := 2; Store.capital := None; Store.region := Some "Africa";
     Store.population := 20; Store.currency_code := None;
     Store.exchange_rate := None; Store.estimated_gdp := None;
     Store.flag_url := None;
     Store.last_refreshed_at := "2025-01-01T00:00:00Z" |}.

Definition usa_row : Store.fields :=
  {| Store.id := 2; Store.capital := None; Store.region := Some "Africa";
     Store.population := 300; Store.currency_code := Some "USD";
     Store.exchange_rate := Some (Store.Fin (1 # 1));
     Store.estimated_gdp := Some (Store.Fin (301200 # 1));
     Store.flag_url := None;
     Store.last_refreshed_at := "2025-01-01T00:00:00Z" |}.

Definition zed_row : Store.fields :=
  {| Store.id := 4; Store.capital := None; Store.region := Some "Africa";
     Store.population := 7; Store.currency_code := Some "ZZZ";
     Store.exchange_rate := Some (Store.Fin (0 # 1)); Store.estimated_gdp := None;
     Store.flag_url := None;
     Store.last_refreshed_at := "2025-01-01T00:00:00Z" |}.

(** The committed table after one refresh of the sample batch. *)
Definition sample_table : Store.table :=
  db (refresh_countries (sample_env sample_batch sample_rates) (sample_world false)).2.

(** A decodable rates response without the [rates] key. *)
Definition rates_missing : Raw.rates_body := {| Raw.rates := None |}.

Definition bad_batch : list Raw.country :=
  [ sample_country "Nigeria" 200 (Some "NGN");
    sample_country "Atlantis" (-5) (Some "USD") ].

(** A valid record whose estimate is too large for a float, before a record
    that fails validation. *)
Definition huge_batch : list Raw.country :=
  [ sample_country "X" (10 ^ 400) (Some "USD");
    sample_country "Atlantis" (-5) (Some "USD") ].

Definition twin_batch : list Raw.country :=
  [ sample_country "India" 10 None; sample_country "INDIA" 20 None ].

Definition twin_table : Store.table :=
  db (refresh_countries (sample_env twin_batch sample_rates) (sample_world false)).2.

Definition chad_twice : list Raw.country :=
  [ sample_country "Chad" 1 None; sample_country "Chad" 2 (Some "USD");
    sample_country "Mali" 3 None ].

(** Seven countries, six of them with a rate. *)
Definition seven_batch : list Raw.country :=
  [ sample_country "A" 1 (Some "USD"); sample_country "B" 2 (Some "USD");
    sample_country "C" 3 (Some "USD"); sample_country "D" 4 (Some "USD");
    sample_country "E" 5 (Some "USD"); sample_country "F" 6 (Some "USD");
    sample_country "G" 7 (Some "XYZ") ].

Definition seven_table : Store.table :=
  db (refresh_countries (sample_env seven_batch sample_rates) (sample_world false)).2.

Definition row_a : Store.fields :=
  {| Store.id := 1; Store.capital := None; Store.region := Some "Africa";
     Store.population := 1; Store.currency_code := Some "USD";
     Store.exchange_rate := Some (Store.Fin (1 # 1));
     Store.estimated_gdp := Some (Store.Fin (1003 # 1));
     Store.flag_url := None;
     Store.last_refreshed_at := "2025-01-01T00:00:00Z" |}.

(** * Properties *)

(** ** Matching without pattern characters *)

Section LikeFacts.
Import Text.

Lemma is_meta_lower_ascii c : is_meta (lower_ascii c) = is_meta c.
Proof. destruct c as [[] [] [] [] [] [] [] []]; reflexivity. Qed.

Lemma has_meta_lower s : has_meta (lower s) = has_meta s.
Proof.
  induction s as [|c s IH]; simpl; [reflexivity|].
  now rewrite is_meta_lower_ascii, IH.
Qed.

(** A pattern without [%], [_] and backslash matches itself only. *)
Lemma like_match_plain p t :
  has_meta p = false ->
  like_match p t = if String.eqb p t then LikeTrue else LikeFalse.
Proof.
  revert t; induction p as [|c p IH]; intros t Hm.
  - destruct t; reflexivity.
  - simpl in Hm. apply orb_false_iff in Hm as [Hc Hp].
    unfold is_meta in Hc.
    apply orb_false_iff in Hc as [Hc H3].
    apply orb_false_iff in Hc as [H1 H2].
    simpl. rewrite H1, H2, H3.
    destruct t as [|x t]; [reflexivity|].
    simpl. rewrite (Ascii.eqb_sym c x).
    destruct (Ascii.eqb x c); [apply IH; assumption | reflexivity].
Qed.

Lemma ilike_plain text pattern :
  has_meta pattern = false ->
  ilike text pattern =
    if String.eqb (lower pattern) (lower text) then LikeTrue else LikeFalse.
Proof.
  intros Hm. unfold ilike. apply like_match_plain.
  now rewrite has_meta_lower.
Qed.

End LikeFacts.

(** ** One iteration of the refresh loop *)

(** The division of line 86 returns a float or raises [OverflowError]; the
    divisor has been tested, so it never raises [ZeroDivisionError]. *)
Lemma true_divide_outcome a b :
  Py.truthy b = true ->
  (exists x, Py.true_divide a b = Returned x) \/
  Py.true_divide a b = Uncaught "OverflowError".
Proof.
  intros Hb. unfold Py.true_divide. rewrite Hb.
  destruct b as [z|y].
  - unfold Py.int_true_divide.
    destruct (SFdiv Py.prec Py.emax (Py.exact a) (Py.exact z)); eauto.
  - unfold Py.float_of_int.
    destruct (binary_normalize Py.prec Py.emax a 0 false); eauto.
Qed.

Lemma currency_logic_outcome p cur rd g :
  (exists r, currency_logic p cur rd g = Returned r) \/
  currency_logic p cur rd g = Uncaught "OverflowError".
Proof.
  unfold currency_logic.
  destruct cur as [[|c0 others]|]; eauto.
  destruct (Raw.code c0) as [code|]; eauto.
  destruct (Text.truthy code); eauto.
  destruct (Raw.rates_or_empty rd !! code) as [rate|]; eauto.
  destruct (Py.truthy rate) eqn:Hr; eauto.
  destruct (randint 1000 2000 g) as [m g'].
  destruct (true_divide_outcome (p * m) rate Hr) as [[x ->] | ->]; eauto.
Qed.

Section RefreshLoop.
Variable ts : string.
Variable rd : Raw.rates_body.

Lemma validation_cases c :
  fails_validation c \/
  exists n p, Raw.name c = Some n /\ Text.truthy n = true /\
              Raw.population c = Some p /\ 0 <= p.
Proof.
  unfold fails_validation, name_missing, population_invalid.
  destruct (Raw.name c) as [[|a n]|]; try (left; left; auto; fail).
  destruct (Raw.population c) as [p|]; [|left; right; exact I].
  destruct (Z.ltb_spec p 0); [left; right; assumption|].
  right. eexists _, _. repeat split; eauto.
Qed.

Lemma valid_not_failing c n p :
  Raw.name c = Some n -> Text.truthy n = true ->
  Raw.population c = Some p -> 0 <= p -> ~ fails_validation c.
Proof.
  unfold fails_validation, name_missing, population_invalid.
  intros Hn Ht Hp Hle. rewrite Hn, Hp.
  intros [[H|H]|H]; try discriminate; try lia.
  injection H as ->. discriminate.
Qed.

Lemma refresh_loop_step c rest tx g n p :
  Raw.name c = Some n -> Text.truthy n = true ->
  Raw.population c = Some p -> 0 <= p ->
  refresh_loop ts rd (c :: rest) tx g =
    match currency_logic p (Raw.currencies c) rd g with
    | Returned r =>
        refresh_loop ts rd rest
          (Store.upsert n (inserted_fields ts c p r.1) tx) r.2
    | HTTPException s d => HTTPException s d
    | Uncaught e => Uncaught e
    end.
Proof.
  intros Hn Ht Hp Hle. simpl. rewrite Hn, Ht, Hp. simpl.
  destruct (Z.ltb_spec p 0); [lia|].
  destruct (currency_logic p (Raw.currencies c) rd g)
    as [[[[cc er] gdp] g']| |]; reflexivity.
Qed.

Lemma refresh_loop_head_invalid c rest tx g :
  fails_validation c ->
  exists field reason,
    offending c field /\
    refresh_loop ts rd (c :: rest) tx g = validation_failed field reason.
Proof.
  unfold offending, fails_validation, name_missing, population_invalid.
  intros Hbad. simpl.
  destruct (Raw.name c) as [[|a n]|] eqn:Hn.
  - exists "name", "is required". split; [left; auto | reflexivity].
  - destruct (Raw.population c) as [p|] eqn:Hp.
    + destruct Hbad as [[H|H]|H]; try discriminate.
      exists "population", "must be non-negative". simpl.
      destruct (Z.ltb_spec p 0); [|lia].
      split; [right; auto | reflexivity].
    + exists "population", "must be non-negative".
      split; [right; auto | reflexivity].
  - exists "name", "is required". split; [left; auto | reflexivity].
Qed.

Lemma valid_prefix_nil c rest : valid_prefix (c :: rest) [] c.
Proof.
  split; [exists rest; reflexivity|]. intros x Hx. inversion Hx.
Qed.

Lemma valid_prefix_cons c0 rest pre c :
  ~ fails_validation c0 -> valid_prefix rest pre c ->
  valid_prefix (c0 :: rest) (c0 :: pre) c.
Proof.
  intros Hc0 [[post ->] Hpre]. split; [exists post; reflexivity|].
  intros x Hx. apply elem_of_cons in Hx as [-> | Hx]; auto.
Qed.

(** The loop stops at the first record that fails validation, unless the
    estimate of an earlier record overflows. *)
Lemma refresh_loop_invalid cs :
  (exists c, c ∈ cs /\ fails_validation c) ->
  forall tx g,
    (exists pre c field reason,
       valid_prefix cs pre c /\ offending c field /\
       refresh_loop ts rd cs tx g = validation_failed field reason) \/
    (refresh_loop ts rd cs tx g = Uncaught "OverflowError" /\
     exists pre c,
       valid_prefix cs pre c /\ ~ fails_validation c /\ estimate_overflows rd c).
Proof.
  induction cs as [|c0 rest IH]; intros [c [Hin Hbad]] tx g.
  - inversion Hin.
  - destruct (validation_cases c0) as [Hc0 | (n & p & Hn & Ht & Hp & Hle)].
    + left.
      destruct (refresh_loop_head_invalid c0 rest tx g Hc0)
        as (field & reason & Hoff & Heq).
      exists [], c0, field, reason.
      split; [apply valid_prefix_nil | split; assumption].
    + pose proof (valid_not_failing c0 n p Hn Ht Hp Hle) as Hok0.
      rewrite (refresh_loop_step c0 rest tx g n p Hn Ht Hp Hle).
      apply elem_of_cons in Hin as [-> | Hin]; [contradiction|].
      destruct (currency_logic_outcome p (Raw.currencies c0) rd g)
        as [[r Hr] | Hr]; rewrite Hr.
      * destruct (IH (ex_intro _ c (conj Hin Hbad))
                     (Store.upsert n (inserted_fields ts c0 p r.1) tx) r.2)
          as [(pre & c' & field & reason & Hpre & Hoff & Heq)
             | (Heq & pre & c' & Hpre & Hok & Hover)].
        -- left. exists (c0 :: pre), c', field, reason.
           split; [now apply valid_prefix_cons | split; assumption].
        -- right. split; [assumption|]. exists (c0 :: pre), c'.
           split; [now apply valid_prefix_cons | split; assumption].
      * right. split; [reflexivity|]. exists [], c0.
        split; [apply valid_prefix_nil|]. split; [assumption|].
        exists p, g. auto.
Qed.

(** The loop runs to its end, raises the validation error, or lets the
    overflow of an estimate escape. *)
Lemma refresh_loop_outcome cs :
  forall tx g,
    (exists tx' g', refresh_loop ts rd cs tx g = Returned (tx', g')) \/
    (exists field reason,
       refresh_loop ts rd cs tx g = validation_failed field reason) \/
    refresh_loop ts rd cs tx g = Uncaught "OverflowError".
Proof.
  induction cs as [|c rest IH]; intros tx g.
  - left. exists tx, g. reflexivity.
  - destruct (validation_cases c) as [Hbad | (n & p & Hn & Ht & Hp & Hle)].
    + right. left.
      destruct (refresh_loop_head_invalid c rest tx g Hbad)
        as (field & reason & _ & Heq).
      exists field, reason. assumption.
    + rewrite (refresh_loop_step c rest tx g n p Hn Ht Hp Hle).
      destruct (currency_logic_outcome p (Raw.currencies c) rd g)
        as [[r ->] | ->]; [apply IH | right; right; reflexivity].
Qed.

Lemma refresh_loop_returned_inv c rest tx g tx' g' :
  refresh_loop ts rd (c :: rest) tx g = Returned (tx', g') ->
  exists n p r,
    Raw.name c = Some n /\ Text.truthy n = true /\
    Raw.population c = Some p /\ 0 <= p /\
    currency_logic p (Raw.currencies c) rd g = Returned r /\
    refresh_loop ts rd rest
      (Store.upsert n (inserted_fields ts c p r.1) tx) r.2 = Returned (tx', g').
Proof.
  intros Hret.
  destruct (validation_cases c) as [Hc | (n & p & Hn & Ht & Hp & Hle)].
  - destruct (refresh_loop_head_invalid c rest tx g Hc)
      as (field & reason & _ & Heq).
    rewrite Heq in Hret. discriminate.
  - exists n, p.
    rewrite (refresh_loop_step c rest tx g n p Hn Ht Hp Hle) in Hret.
    destruct (currency_logic p (Raw.currencies c) rd g) as [r| |];
      try discriminate.
    exists r. repeat (split; [assumption || reflexivity|]). exact Hret.
Qed.

Lemma upsert_lookup_eq n f t :
  exists i, Store.rows (Store.upsert n f t) !! n = Some (Store.set_id i f).
Proof.
  unfold Store.upsert. destruct (Store.rows t !! n) as [old|]; simpl.
  - exists (Store.id old). apply lookup_insert_eq.
  - exists (Store.next_id t). apply lookup_insert_eq.
Qed.

Lemma upsert_lookup_ne n m f t :
  n <> m -> Store.rows (Store.upsert n f t) !! m = Store.rows t !! m.
Proof.
  intros Hne. unfold Store.upsert.
  destruct (Store.rows t !! n); simpl; apply lookup_insert_ne; assumption.
Qed.

Lemma in_batch_cons n c rest :
  in_batch n (c :: rest) <-> Raw.name c = Some n \/ in_batch n rest.
Proof.
  unfold in_batch. rewrite fmap_cons, elem_of_cons. intuition congruence.
Qed.

(** Rows whose name is not in the batch are left as they were. *)
Lemma refresh_loop_untouched cs :
  forall tx g tx' g',
    refresh_loop ts rd cs tx g = Returned (tx', g') ->
    forall n, ~ in_batch n cs -> Store.rows tx' !! n = Store.rows tx !! n.
Proof.
  induction cs as [|c rest IH]; intros tx g tx' g' Hret n Hout.
  - simpl in Hret. injection Hret as <- _. reflexivity.
  - apply refresh_loop_returned_inv in Hret
      as (m & p & r & Hm & _ & _ & _ & _ & Hret).
    rewrite (IH _ _ _ _ Hret n).
    + apply upsert_lookup_ne. intros ->. apply Hout.
      apply in_batch_cons. left. assumption.
    + intros Hin. apply Hout. apply in_batch_cons. right. assumption.
Qed.

(** Every name of the batch ends with the row built from one of its
    records. *)
Lemma refresh_loop_produced cs :
  forall tx g tx' g',
    refresh_loop ts rd cs tx g = Returned (tx', g') ->
    forall n, in_batch n cs ->
    exists c f, c ∈ cs /\ Store.rows tx' !! n = Some f /\
                produced_from ts rd c n f.
Proof.
  induction cs as [|c rest IH]; intros tx g tx' g' Hret n Hin.
  - unfold in_batch in Hin. simpl in Hin. inversion Hin.
  - apply refresh_loop_returned_inv in Hret
      as (m & p & r & Hm & Ht & Hp & Hle & Hcl & Hret).
    destruct (decide (in_batch n rest)) as [Hrest | Hrest].
    + destruct (IH _ _ _ _ Hret n Hrest) as (c' & f & Hc' & Hf & Hprod).
      exists c', f. split; [right; assumption | split; assumption].
    + apply in_batch_cons in Hin as [Hn | Hin]; [|contradiction].
      assert (m = n) as -> by congruence.
      rewrite (refresh_loop_untouched _ _ _ _ _ Hret n Hrest).
      destruct (upsert_lookup_eq n (inserted_fields ts c p r.1) tx) as [i Hi].
      eexists c, _. split; [left|]. split; [exact Hi|].
      split; [assumption|]. exists p, g, i, r. auto.
Qed.

(** Every record of a batch that went through names a stored row. *)
Lemma refresh_loop_names cs :
  forall tx g tx' g',
    refresh_loop ts rd cs tx g = Returned (tx', g') ->
    forall c, c ∈ cs -> exists n, Raw.name c = Some n /\ in_batch n cs.
Proof.
  induction cs as [|c0 rest IH]; intros tx g tx' g' Hret c Hin.
  - inversion Hin.
  - apply refresh_loop_returned_inv in Hret
      as (m & p & r & Hm & _ & _ & _ & _ & Hret).
    apply elem_of_cons in Hin as [-> | Hin].
    + exists m. split; [assumption|]. apply in_batch_cons. auto.
    + destruct (IH _ _ _ _ Hret c Hin) as (n & Hn & Hb).
      exists n. split; [assumption|]. apply in_batch_cons. auto.
Qed.

End RefreshLoop.
(** ** The estimator *)

Lemma truthy_nonempty code : Text.truthy code = true <-> code <> "".
Proof. destruct code; simpl; split; intros; congruence. Qed.

Lemma randint_range a b g : a <= b -> a <= (randint a b g).1 <= b.
Proof.
  intros Hab. unfold randint. simpl.
  pose proof (Z.mod_pos_bound (g O) (b - a + 1)). lia.
Qed.

(** Every multiplier of the range is drawn from some generator state. *)
Lemma randint_onto a b m : a <= m <= b -> (randint a b (fun _ => m - a)).1 = m.
Proof.
  intros Hm. unfold randint. simpl. rewrite Z.mod_small; lia.
Qed.


(** What [currency_logic] returns, branch by branch. *)
Lemma currency_logic_returned p cur rd g r :
  currency_logic p cur rd g = Returned r ->
  (r.1.2 = None /\ r.2 = g /\
   (r.1.1.1 = None \/
    exists code, r.1.1.1 = Some code /\
      (Text.truthy code = false \/ Raw.rates_or_empty rd !! code = None)) /\
   r.1.1.2 = None) \/
  (exists code rate,
     r.1.1.1 = Some code /\ Text.truthy code = true /\
     Raw.rates_or_empty rd !! code = Some rate /\
     r.1.1.2 = Some rate /\
     ((Py.truthy rate = false /\ r.1.2 = None /\ r.2 = g) \/
      (Py.truthy rate = true /\
       exists x,
         Py.true_divide (p * (randint 1000 2000 g).1) rate = Returned x /\
         r.1.2 = Some x /\ r.2 = (randint 1000 2000 g).2))).
Proof.
  unfold currency_logic.
  destruct cur as [[|c0 others]|];
    try (intros [= <-]; left; simpl; auto; fail).
  destruct (Raw.code c0) as [code|];
    [|intros [= <-]; left; simpl; auto].
  destruct (Text.truthy code) eqn:Ht;
    [|intros [= <-]; left; simpl; repeat split; eauto].
  destruct (Raw.rates_or_empty rd !! code) as [rate|] eqn:Hr;
    [|intros [= <-]; left; simpl; repeat split; eauto].
  destruct (Py.truthy rate) eqn:Hz.
  - destruct (randint 1000 2000 g) as [m g'] eqn:Hd. simpl.
    destruct (Py.true_divide (p * m) rate) as [x| |] eqn:Hdiv;
      try discriminate.
    intros [= <-]. right. exists code, rate. simpl.
    repeat (split; [assumption || reflexivity|]).
    right. split; [assumption|]. exists x. auto.
  - intros [= <-]. right. exists code, rate. simpl.
    repeat (split; [assumption || reflexivity|]). left. auto.
Qed.

(** The three columns that [currency_logic] fills, as one stored row. *)
Lemma currency_logic_columns ts c p rd g i r :
  currency_logic p (Raw.currencies c) rd g = Returned r ->
  let f := Store.set_id i (inserted_fields ts c p r.1) in
  (is_Some (Store.estimated_gdp f) <-> rate_resolved rd f) /\
  (rate_absent rd f ->
   Store.exchange_rate f = None /\ Store.estimated_gdp f = None).
Proof.
  intros Hcl. unfold rate_resolved, rate_absent. simpl.
  destruct (currency_logic_returned _ _ _ _ _ Hcl)
    as [(Hgdp & _ & Hcode & Hrate)
       | (code & rate & Hcode & Ht & Hr & Hrate & Hcases)].
  - rewrite Hgdp, Hrate. split; [|auto].
    split; [intros [? ?]; discriminate|].
    intros (code' & rate' & Hc' & Hne & Hr' & _).
    destruct Hcode as [Hcode | (code & Hcode & [Ht | Hnone])];
      rewrite Hcode in Hc'; try discriminate; injection Hc' as <-.
    + apply truthy_nonempty in Hne. congruence.
    + congruence.
  - rewrite Hcode. split.
    + destruct Hcases as [(Hz & Hgdp & _) | (Hz & x & _ & Hgdp & _)];
        rewrite Hgdp.
      * split; [intros [? ?]; discriminate|].
        intros (code' & rate' & [= <-] & _ & Hr' & Hz'). congruence.
      * split; [intros _ | eauto].
        exists code, rate. repeat split; try assumption.
        now apply truthy_nonempty.
    + intros [H | (code' & [= <-] & Hnone)]; [discriminate | congruence].
Qed.



(** ** The summary file *)


(** A summary that was saved is the file on the disk. *)
Lemma save_summary_saved img d d' :
  save_summary img d = (true, d') -> summary_png d' = Some (Png img).
Proof.
  unfold save_summary, ensure_cache_dir, save_image.
  destruct (cache_dir d); destruct (fault d); simpl;
    intros [= <-]; reflexivity.
Qed.

(** ** The refresh handler *)

Lemma refresh_after_loop env w cs rd tx' g' :
  rest_countries env = Some cs ->
  exchange_rate_api env = Some rd ->
  refresh_loop (batch_timestamp env) rd cs (db w) (random env) = Returned (tx', g') ->
  refresh_countries env w =
    match save_summary (summary_image tx' (batch_timestamp env)) (disk w) with
    | (true, d) => (Returned tt, {| db := tx'; disk := d |})
    | (false, d) => (Uncaught "OSError", {| db := tx'; disk := d |})
    end.
Proof.
  intros Hc Hr Hloop. unfold refresh_countries, batch_timestamp in *.
  rewrite Hc, Hr, Hloop. reflexivity.
Qed.

Lemma refresh_returned_inv env w w' cs rd :
  rest_countries env = Some cs ->
  exchange_rate_api env = Some rd ->
  refresh_countries env w = (Returned tt, w') ->
  exists g', refresh_loop (batch_timestamp env) rd cs (db w) (random env)
             = Returned (db w', g').
Proof.
  intros Hc Hr Hret. unfold refresh_countries, batch_timestamp in *.
  rewrite Hc, Hr in Hret.
  destruct (refresh_loop _ rd cs (db w) (random env)) as [[tx' g']| |];
    simpl in Hret; try discriminate.
  destruct (save_summary _ (disk w)) as [[|] d]; try discriminate.
  injection Hret as <-. exists g'. reflexivity.
Qed.

Lemma refresh_returned_sources env w w' :
  refresh_countries env w = (Returned tt, w') ->
  exists cs rd, rest_countries env = Some cs /\ exchange_rate_api env = Some rd.
Proof.
  unfold refresh_countries. intros Hret.
  destruct (rest_countries env) as [cs|]; [|discriminate].
  destruct (exchange_rate_api env) as [rd|]; [|discriminate].
  eauto.
Qed.

(** A loop that did not return leaves the world as it was. *)
Lemma refresh_loop_failed env w cs rd :
  rest_countries env = Some cs ->
  exchange_rate_api env = Some rd ->
  (forall r, refresh_loop (batch_timestamp env) rd cs (db w) (random env)
             <> Returned r) ->
  refresh_countries env w =
    (reraise (refresh_loop (batch_timestamp env) rd cs (db w) (random env))
             (Returned tt), w).
Proof.
  intros Hc Hr Hloop. unfold refresh_countries, batch_timestamp in *.
  rewrite Hc, Hr.
  destruct (refresh_loop _ rd cs (db w) (random env)) as [[tx' g']| |];
    [exfalso; eapply Hloop; reflexivity | reflexivity | reflexivity].
Qed.

(** ** Claims on the refresh pipeline *)

(** C1 (as the code has it). When both fetches succeed and some fetched
    record fails validation (name missing or empty, population missing or
    negative), the refresh aborts and the world is left as it was: no row of
    the batch is committed, not even those processed before the failing
    record, and the cached summary image is not rewritten.  The error is the
    HTTP 400 validation error naming a field on which the first failing
    record fails, unless the estimate of a valid record before it is too
    large for a float: then the [OverflowError] of line 86 escapes instead. *)
Theorem refresh_validation_failure_aborts env w cs rd :
  rest_countries env = Some cs ->
  exchange_rate_api env = Some rd ->
  (exists c, c ∈ cs /\ fails_validation c) ->
  (refresh_countries env w).2 = w /\
  ((exists pre c field reason,
      valid_prefix cs pre c /\ offending c field /\
      (refresh_countries env w).1 =
        HTTPException 400 (ValidationDetail "Validation failed" field reason)) \/
   ((refresh_countries env w).1 = Uncaught "OverflowError" /\
    exists pre c,
      valid_prefix cs pre c /\ ~ fails_validation c /\ estimate_overflows rd c)).
Proof.
  intros Hc Hr Hbad.
  destruct (refresh_loop_invalid (batch_timestamp env) rd cs Hbad
              (db w) (random env))
    as [(pre & c & field & reason & Hpre & Hoff & Hloop) | (Hloop & Hover)].
  - rewrite (refresh_loop_failed env w cs rd Hc Hr)
      by (rewrite Hloop; discriminate).
    rewrite Hloop. split; [reflexivity|]. left.
    exists pre, c, field, reason. auto.
  - rewrite (refresh_loop_failed env w cs rd Hc Hr)
      by (rewrite Hloop; discriminate).
    rewrite Hloop. split; [reflexivity|]. right. auto.
Qed.

Lemma refresh_validation_failure_aborts_witness :
  (refresh_countries (sample_env bad_batch sample_rates) (sample_world false)).2
    = sample_world false /\
  ((exists pre c field reason,
      valid_prefix bad_batch pre c /\ offending c field /\
      (refresh_countries (sample_env bad_batch sample_rates)
                         (sample_world false)).1 =
        HTTPException 400 (ValidationDetail "Validation failed" field reason)) \/
   ((refresh_countries (sample_env bad_batch sample_rates)
                       (sample_world false)).1 = Uncaught "OverflowError" /\
    exists pre c,
      valid_prefix bad_batch pre c /\ ~ fails_validation c /\
      estimate_overflows sample_rates c)).
Proof.
  apply (refresh_validation_failure_aborts
           (sample_env bad_batch sample_rates) (sample_world false)
           bad_batch sample_rates).
  - reflexivity.
  - reflexivity.
  - exists (sample_country "Atlantis" (-5) (Some "USD")). split.
    + right. left.
    + right. unfold population_invalid. simpl. lia.
Defined.

(** C1 as stated fails: the second record of the batch has the population
    -5, and the refresh does not raise the HTTP 400 validation error; the
    estimate of the first record, of population 10^400, raises
    [OverflowError] before the second record is looked at. *)
Lemma overflow_before_validation_error :
  (exists c, c ∈ huge_batch /\ fails_validation c) /\
  refresh_countries (sample_env huge_batch sample_rates) (sample_world false) =
    (Uncaught "OverflowError", sample_world false).
Proof.
  split.
  - exists (sample_country "Atlantis" (-5) (Some "USD")). split.
    + right. left.
    + right. unfold population_invalid. simpl. lia.
  - vm_compute. reflexivity.
Qed.

(** C2. After a refresh that returns, one timestamp [T] (computed once, from
    the clock) is carried by the stored row of every record of the batch;
    rows outside the batch are left as they were. *)
Theorem refresh_shared_timestamp env w w' cs :
  rest_countries env = Some cs ->
  refresh_countries env w = (Returned tt, w') ->
  exists T,
    T = batch_timestamp env /\
    (forall c, c ∈ cs ->
       exists n f, Raw.name c = Some n /\ Store.rows (db w') !! n = Some f /\
                   Store.last_refreshed_at f = T) /\
    (forall n f, in_batch n cs -> Store.rows (db w') !! n = Some f ->
                 Store.last_refreshed_at f = T) /\
    (forall n, ~ in_batch n cs ->
               Store.rows (db w') !! n = Store.rows (db w) !! n).
Proof.
  intros Hc Hret.
  destruct (refresh_returned_sources env w w' Hret) as (cs' & rd & Hc' & Hr).
  assert (cs' = cs) as -> by congruence.
  destruct (refresh_returned_inv env w w' cs rd Hc Hr Hret) as [g' Hloop].
  exists (batch_timestamp env). split; [reflexivity|].
  assert (forall n f, in_batch n cs -> Store.rows (db w') !! n = Some f ->
                      Store.last_refreshed_at f = batch_timestamp env) as Hts.
  { intros n f Hin Hf.
    destruct (refresh_loop_produced _ _ _ _ _ _ _ Hloop n Hin)
      as (c & f' & _ & Hf' & _ & p & g & i & r & _ & _ & _ & ->).
    rewrite Hf in Hf'. injection Hf' as ->. reflexivity. }
  split; [|split].
  - intros c Hin.
    destruct (refresh_loop_names _ _ _ _ _ _ _ Hloop c Hin) as (n & Hn & Hb).
    destruct (refresh_loop_produced _ _ _ _ _ _ _ Hloop n Hb)
      as (c' & f & _ & Hf & _).
    exists n, f. split; [assumption|]. split; [assumption|].
    apply (Hts n); assumption.
  - exact Hts.
  - intros n Hout. apply (refresh_loop_untouched _ _ _ _ _ _ _ Hloop n Hout).
Qed.

Lemma refresh_shared_timestamp_witness :
  exists T,
    T = "2025-01-01T00:00:00Z" /\
    (forall c, c ∈ sample_batch ->
       exists n f, Raw.name c = Some n /\
                   Store.rows sample_table !! n = Some f /\
                   Store.last_refreshed_at f = T) /\
    (forall n f, in_batch n sample_batch ->
                 Store.rows sample_table !! n = Some f ->
                 Store.last_refreshed_at f = T) /\
    (forall n, ~ in_batch n sample_batch ->
               Store.rows sample_table !! n =
               Store.rows (db (sample_world false)) !! n).
Proof.
  apply (refresh_shared_timestamp
           (sample_env sample_batch sample_rates) (sample_world false)
           (refresh_countries (sample_env sample_batch sample_rates)
                              (sample_world false)).2
           sample_batch).
  - reflexivity.
  - vm_compute. reflexivity.
Defined.

(** C3 (as the code has it). For every row that a returning refresh stores
    for a record of its batch, [estimated_gdp] is non-null if and only if the
    row's [currency_code] is non-null and non-empty and the fetched rate
    table maps it to a non-zero rate; when the code is null or no key of the
    rate table, [exchange_rate] and [estimated_gdp] are both null. *)
Theorem refreshed_gdp_iff_rate_resolved env w w' cs rd :
  rest_countries env = Some cs ->
  exchange_rate_api env = Some rd ->
  refresh_countries env w = (Returned tt, w') ->
  forall n f,
    in_batch n cs -> Store.rows (db w') !! n = Some f ->
    (is_Some (Store.estimated_gdp f) <-> rate_resolved rd f) /\
    (rate_absent rd f ->
     Store.exchange_rate f = None /\ Store.estimated_gdp f = None).
Proof.
  intros Hc Hr Hret n f Hin Hf.
  destruct (refresh_returned_inv env w w' cs rd Hc Hr Hret) as [g' Hloop].
  destruct (refresh_loop_produced _ _ _ _ _ _ _ Hloop n Hin)
    as (c & f' & _ & Hf' & _ & p & g & i & r & _ & _ & Hcl & ->).
  rewrite Hf in Hf'. injection Hf' as ->.
  exact (currency_logic_columns _ c p rd g i r Hcl).
Qed.

Lemma refreshed_gdp_iff_rate_resolved_witness :
  (is_Some (Store.estimated_gdp nigeria_row) <->
   rate_resolved sample_rates nigeria_row) /\
  (rate_absent sample_rates nigeria_row ->
   Store.exchange_rate nigeria_row = None /\
   Store.estimated_gdp nigeria_row = None).
Proof.
  apply (refreshed_gdp_iff_rate_resolved
           (sample_env sample_batch sample_rates) (sample_world false)
           (refresh_countries (sample_env sample_batch sample_rates)
                              (sample_world false)).2
           sample_batch sample_rates eq_refl eq_refl)
    with (n := "Nigeria").
  - vm_compute. reflexivity.
  - unfold in_batch. simpl. left.
  - vm_compute. reflexivity.
Defined.

(** C3 as stated fails: the refreshed row of "Zed" has the currency code
    "ZZZ", a key of the rate table (with rate 0), and no estimated GDP. *)
Lemma gdp_null_with_code_in_rates :
  in_batch "Zed" sample_batch /\
  exists f,
    Store.rows sample_table !! "Zed" = Some f /\
    ~ (is_Some (Store.estimated_gdp f) <-> code_in_rates sample_rates f).
Proof.
  split; [vm_compute; repeat constructor|].
  eexists. split; [vm_compute; reflexivity|].
  intros [_ Hback].
  assert (is_Some (@None Store.numeric)) as [q Hq]; [|discriminate].
  apply Hback. exists "ZZZ". split; [reflexivity|].
  exists (Py.Int 0). vm_compute. reflexivity.
Qed.




(** C5 (as the code has it). When the fetches succeed, the loop has upserted
    every record and the batch is committed, and the disk then refuses the
    summary image, the committed batch is kept and the request itself fails
    with the uncaught exception (HTTP 500): the handler has no degraded or
    partial-success result. *)
Theorem report_failure_fails_refresh env w cs rd tx' g' :
  rest_countries env = Some cs ->
  exchange_rate_api env = Some rd ->
  refresh_loop (batch_timestamp env) rd cs (db w) (random env)
    = Returned (tx', g') ->
  (save_summary (summary_image tx' (batch_timestamp env)) (disk w)).1 = false ->
  (refresh_countries env w).1 = Uncaught "OSError" /\
  db (refresh_countries env w).2 = tx'.
Proof.
  intros Hc Hr Hloop Hdisk.
  rewrite (refresh_after_loop env w cs rd tx' g' Hc Hr Hloop).
  destruct (save_summary _ (disk w)) as [[|] d]; [discriminate|].
  split; reflexivity.
Qed.

Lemma report_failure_fails_refresh_witness :
  (refresh_countries (sample_env sample_batch sample_rates) (sample_world true)).1
    = Uncaught "OSError" /\
  db (refresh_countries (sample_env sample_batch sample_rates)
                        (sample_world true)).2 = sample_table.
Proof.
  apply (report_failure_fails_refresh
           (sample_env sample_batch sample_rates) (sample_world true)
           sample_batch sample_rates sample_table
           (fun n => sample_random (S (S n))) eq_refl eq_refl).
  - vm_compute. reflexivity.
  - vm_compute. reflexivity.
Defined.

(** C5 as stated fails: with a disk that refuses the write the refresh of a
    valid batch is committed and the request fails. *)
Lemma refresh_fails_on_broken_disk :
  refresh_countries (sample_env sample_batch sample_rates) (sample_world true) =
    (Uncaught "OSError",
     {| db := sample_table;
        disk := {| cache_dir := true; summary_png := Some Damaged;
                   fault := WriteFails true |} |}).
Proof. vm_compute. reflexivity. Qed.


(** ** Claims on the query endpoints *)

Lemma sort_clause_cases s :
  sort_clause (Some s) =
    if String.eqb (Text.lower s) "gdp_desc" then [OrderByGdp true]
    else if String.eqb (Text.lower s) "gdp_asc" then [OrderByGdp false]
    else [].
Proof. destruct s; reflexivity. Qed.

(** X18. A [sort] value other than the two recognised ones, in any letter
    case, adds no clause: the request is answered as without [sort]. *)
Lemma unrecognised_sort_ignored region currency s t :
  Text.lower s <> "gdp_desc" -> Text.lower s <> "gdp_asc" ->
  get_countries_with_filtering region currency (Some s) t =
  get_countries_with_filtering region currency None t.
Proof.
  intros Hd Ha.
  unfold get_countries_with_filtering, fetch_countries, build_query.
  rewrite sort_clause_cases.
  apply String.eqb_neq in Hd, Ha. rewrite Hd, Ha. simpl.
  unfold region_clause, currency_clause, truthy_param.
  destruct region as [r|]; [destruct (Text.truthy r)|];
    (destruct currency as [c|]; [destruct (Text.truthy c)|]);
    simpl; destruct (Text.truthy s); reflexivity.
Qed.

Lemma numeric_le_total a b : Store.numeric_le a b \/ Store.numeric_le b a.
Proof.
  destruct a as [x| | |], b as [y| | |]; simpl; auto.
  rewrite !Qle_bool_iff.
  destruct (Qlt_le_dec x y) as [H|H]; [left; apply Qlt_le_weak|right]; assumption.
Qed.

Lemma numeric_le_trans a b c :
  Store.numeric_le a b -> Store.numeric_le b c -> Store.numeric_le a c.
Proof.
  destruct a as [x| | |], b as [y| | |], c as [z| | |]; simpl;
    try tauto; try discriminate.
  rewrite !Qle_bool_iff. apply Qle_trans.
Qed.

Lemma sql_le_total a b : Store.sql_le a b \/ Store.sql_le b a.
Proof.
  destruct a as [x|], b as [y|]; simpl; auto. apply numeric_le_total.
Qed.

Lemma sql_le_trans a b c :
  Store.sql_le a b -> Store.sql_le b c -> Store.sql_le a c.
Proof.
  destruct a as [x|], b as [y|], c as [z|]; simpl; try tauto.
  apply numeric_le_trans.
Qed.

#[local] Instance gdp_desc_total : Total Store.gdp_desc.
Proof.
  intros [n1 f1] [n2 f2]. unfold Store.gdp_desc. simpl. apply sql_le_total.
Qed.

(** Under [sort=gdp_desc] the rows come in the descending order of the
    database, in which a null precedes every value. *)
Lemma gdp_desc_sorted t :
  fetch_countries None None (Some "gdp_desc") t
    = Some (Store.order_by_gdp_desc (Store.select_all t)) /\
  Sorted Store.gdp_desc (Store.order_by_gdp_desc (Store.select_all t)) /\
  Store.order_by_gdp_desc (Store.select_all t) ≡ₚ Store.select_all t.
Proof.
  split; [reflexivity|]. split.
  - apply Sorted_merge_sort. apply _.
  - apply merge_sort_Permutation.
Qed.

(** C6 (failing input). On the refreshed sample table, [sort=gdp_desc]
    returns the two rows without estimated GDP before the rows that have
    one: null rows are neither last nor left out. *)
Theorem gdp_desc_puts_null_rows_first :
  names_and_gdp
    (get_countries_with_filtering None None (Some "gdp_desc") sample_table) =
  [ ("Wakanda", None); ("Zed", None);
    ("USA", Some (Store.Fin (301200 # 1))); ("Nigeria", Some (Store.Fin (1003 # 8))) ].
Proof. vm_compute. reflexivity. Qed.

(** C7. With no filter supplied the query selects every row, as many as
    [/status] counts; the handler returns them, and answers 404 exactly when
    the count is 0. *)
Theorem unfiltered_query_matches_count t :
  fetch_countries None None None t = Some (Store.select_all t) /\
  Z.of_nat (length (Store.select_all t)) = total_countries (get_status t) /\
  get_countries_with_filtering None None None t =
    if decide (total_countries (get_status t) = 0)
    then not_found "Country not found"
    else Returned (Store.select_all t).
Proof.
  split; [reflexivity|].
  assert (Z.of_nat (length (Store.select_all t)) = total_countries (get_status t))
    as Hcount.
  { unfold get_status, Store.count, Store.select_all. cbn [total_countries].
    f_equal. apply (length_map_to_list (Store.rows t)). }
  split; [exact Hcount|].
  unfold get_countries_with_filtering.
  change (fetch_countries None None None t) with (Some (Store.select_all t)).
  rewrite <- Hcount.
  destruct (Store.select_all t) as [|r l].
  - reflexivity.
  - destruct (decide _) as [H|H]; [simpl in H; lia | reflexivity].
Qed.

(** ** Lookup and deletion by name *)

Lemma select_where_elem cond l l' r :
  Store.select_where cond l = Some l' -> r ∈ l' ->
  r ∈ l /\ cond r = Text.LikeTrue.
Proof.
  revert l'. induction l as [|x l IH]; intros l' Hsel Hin; simpl in Hsel.
  - injection Hsel as <-. inversion Hin.
  - destruct (cond x) eqn:Hx; [| |discriminate].
    + destruct (Store.select_where cond l) as [l0|]; [|discriminate].
      simpl in Hsel. injection Hsel as <-.
      apply elem_of_cons in Hin as [-> | Hin].
      * split; [left | assumption].
      * destruct (IH l0 eq_refl Hin). split; [right|]; assumption.
    + destruct (IH l' Hsel Hin). split; [right|]; assumption.
Qed.

Lemma select_where_none cond l :
  Store.select_where cond l = Some [] ->
  forall r, r ∈ l -> cond r = Text.LikeFalse.
Proof.
  induction l as [|x l IH]; intros Hsel r Hin; simpl in Hsel.
  - inversion Hin.
  - destruct (cond x) eqn:Hx; [| |discriminate].
    + destruct (Store.select_where cond l); discriminate.
    + apply elem_of_cons in Hin as [-> | Hin]; [assumption | now apply IH].
Qed.

Lemma select_where_total cond l :
  (forall r, cond r <> Text.LikeError) ->
  exists l', Store.select_where cond l = Some l'.
Proof.
  intros Hok. induction l as [|x l [l' IH]]; simpl.
  - eauto.
  - destruct (cond x) eqn:Hx.
    + rewrite IH. simpl. eauto.
    + eauto.
    + destruct (Hok x Hx).
Qed.

Lemma ilike_plain_true text pattern :
  Text.has_meta pattern = false ->
  Text.ilike text pattern = Text.LikeTrue <-> Text.lower text = Text.lower pattern.
Proof.
  intros Hm. rewrite (ilike_plain text pattern Hm).
  destruct (String.eqb_spec (Text.lower pattern) (Text.lower text));
    split; intros; congruence.
Qed.

Lemma ilike_plain_false text pattern :
  Text.has_meta pattern = false ->
  Text.ilike text pattern = Text.LikeFalse <-> Text.lower text <> Text.lower pattern.
Proof.
  intros Hm. rewrite (ilike_plain text pattern Hm).
  destruct (String.eqb_spec (Text.lower pattern) (Text.lower text));
    split; intros; congruence.
Qed.

Lemma ilike_plain_no_error text pattern :
  Text.has_meta pattern = false -> Text.ilike text pattern <> Text.LikeError.
Proof.
  intros Hm. rewrite (ilike_plain text pattern Hm).
  destruct (String.eqb _ _); discriminate.
Qed.

(** C8 (as the code has it). The argument is an [ILIKE] pattern.  When it
    contains none of [%], [_] and backslash, the lookup is a case-insensitive
    exact match: it returns a stored row whose name equals the argument up to
    letter case, and answers 404 exactly when no stored name does. *)
Theorem get_by_name_plain name t :
  Text.has_meta name = false ->
  (exists r,
     get_country_by_name name t = Returned r /\
     Store.rows t !! r.1 = Some r.2 /\
     Text.lower r.1 = Text.lower name) \/
  (get_country_by_name name t = not_found "Country not found" /\
   forall n, is_Some (Store.rows t !! n) -> Text.lower n <> Text.lower name).
Proof.
  intros Hm. unfold get_country_by_name.
  destruct (select_where_total (fun r : Store.row => Text.ilike r.1 name)
              (Store.select_all t)) as [l Hsel].
  { intros r. now apply ilike_plain_no_error. }
  rewrite Hsel. destruct l as [|r l].
  - right. split; [reflexivity|].
    intros n [f Hf].
    apply (ilike_plain_false n name Hm).
    apply (select_where_none _ _ Hsel (n, f)).
    unfold Store.select_all. now apply elem_of_map_to_list.
  - left. exists r. split; [reflexivity|].
    destruct (select_where_elem _ _ _ r Hsel) as [Hin Hlike]; [left|].
    split.
    + unfold Store.select_all in Hin. destruct r as [n f].
      now apply elem_of_map_to_list in Hin.
    + now apply (ilike_plain_true r.1 name Hm).
Qed.

Lemma get_by_name_plain_witness :
  (exists r,
     get_country_by_name "nigeria" sample_table = Returned r /\
     Store.rows sample_table !! r.1 = Some r.2 /\
     Text.lower r.1 = Text.lower "nigeria") \/
  (get_country_by_name "nigeria" sample_table = not_found "Country not found" /\
   forall n, is_Some (Store.rows sample_table !! n) ->
             Text.lower n <> Text.lower "nigeria").
Proof. apply (get_by_name_plain "nigeria" sample_table). reflexivity. Defined.

(** C8 as stated fails: no stored name equals "%" in any letter case, and
    the lookup of "%" returns a row instead of answering 404. *)
Lemma get_by_name_wildcard :
  forallb (fun r : Store.row =>
             negb (String.eqb (Text.lower r.1) (Text.lower "%")))
          (Store.select_all sample_table) = true /\
  get_country_by_name "%" sample_table = Returned ("Wakanda", wakanda_row).
Proof. split; vm_compute; reflexivity. Qed.

(** C9 (as the code has it). Deletion matches the exact name.  Without such
    a row it answers 404 and the table is unchanged.  With one, it removes
    that row and no other; a later lookup of the same name never returns the
    deleted row, and answers 404 when the name has no pattern character and
    no remaining name equals it up to letter case. *)
Theorem delete_by_name_exact name t :
  (Store.rows t !! name = None ->
   delete_country_by_name name t = (not_found "Country not found", t)) /\
  (is_Some (Store.rows t !! name) ->
   exists t',
     delete_country_by_name name t = (Returned tt, t') /\
     Store.rows t' !! name = None /\
     (forall n, n <> name -> Store.rows t' !! n = Store.rows t !! n) /\
     S (size (Store.rows t')) = size (Store.rows t) /\
     (forall r, get_country_by_name name t' = Returned r -> r.1 <> name) /\
     (Text.has_meta name = false ->
      (forall n, is_Some (Store.rows t' !! n) ->
                 Text.lower n <> Text.lower name) ->
      get_country_by_name name t' = not_found "Country not found")).
Proof.
  unfold delete_country_by_name. split.
  - intros ->. reflexivity.
  - intros [f Hf]. rewrite Hf.
    exists (Store.delete_name name t). split; [reflexivity|].
    unfold Store.delete_name. simpl.
    split; [apply lookup_delete_eq|].
    split; [intros n Hne; now apply lookup_delete_ne|].
    split.
    { rewrite map_size_delete_Some by eauto.
      assert (size (Store.rows t) <> 0%nat) as Hnz.
      { apply map_size_non_empty_iff. intros Hempty.
        rewrite Hempty, lookup_empty in Hf. discriminate. }
      lia. }
    split.
    + intros [n g] Hget Heq. simpl in Heq. subst n.
      unfold get_country_by_name in Hget.
      destruct (Store.select_where _ _) as [[|r l]|] eqn:Hsel; try discriminate.
      injection Hget as ->.
      destruct (select_where_elem _ _ _ (name, g) Hsel) as [Hin _]; [left|].
      unfold Store.select_all in Hin. simpl in Hin.
      apply elem_of_map_to_list in Hin.
      rewrite lookup_delete_eq in Hin. discriminate.
    + intros Hm Hnone. unfold get_country_by_name.
      destruct (select_where_total (fun r : Store.row => Text.ilike r.1 name)
                  (Store.select_all
                     {| Store.rows := delete name (Store.rows t);
                        Store.next_id := Store.next_id t |})) as [l Hsel].
      { intros r. now apply ilike_plain_no_error. }
      rewrite Hsel. destruct l as [|[n g] l]; [reflexivity|].
      destruct (select_where_elem _ _ _ (n, g) Hsel) as [Hin Hlike]; [left|].
      exfalso. apply (Hnone n).
      * unfold Store.select_all in Hin. simpl in Hin.
        apply elem_of_map_to_list in Hin. eauto.
      * now apply (ilike_plain_true n name Hm).
Qed.

Lemma delete_by_name_exact_witness :
  exists t',
    delete_country_by_name "USA" sample_table = (Returned tt, t') /\
    Store.rows t' !! "USA" = None /\
    S (size (Store.rows t')) = size (Store.rows sample_table) /\
    get_country_by_name "USA" t' = not_found "Country not found".
Proof.
  destruct (delete_by_name_exact "USA" sample_table) as [_ Hsome].
  destruct Hsome as (t' & Hdel & Hgone & _ & Hsize & _ & Hget).
  - vm_compute. eauto.
  - exists t'. repeat (split; [assumption|]).
    apply Hget; [reflexivity|].
    injection Hdel as <-.
    intros n [f Hf]. apply elem_of_map_to_list in Hf.
    vm_compute in Hf.
    repeat (apply elem_of_cons in Hf as [Hf | Hf];
            [injection Hf as -> _; vm_compute; discriminate|]).
    inversion Hf.
Defined.

(** C9 as stated fails: after "India" is deleted, the lookup of "India"
    returns the row "INDIA" instead of answering 404. *)
Lemma get_after_delete_finds_twin :
  (delete_country_by_name "India" twin_table).1 = Returned tt /\
  get_country_by_name "India" (delete_country_by_name "India" twin_table).2
    = Returned ("INDIA", india_upper_row).
Proof. split; vm_compute; reflexivity. Qed.

(** * Further properties of the handlers *)

(** ** The refresh loop as a whole *)

Section RefreshLoopMore.
Variable ts : string.
Variable rd : Raw.rates_body.

(** The error of a failing record: the name is checked before the
    population. *)
Lemma refresh_loop_head_error c rest tx g :
  fails_validation c ->
  refresh_loop ts rd (c :: rest) tx g =
    match Raw.name c with
    | Some (String _ _) => validation_failed "population" "must be non-negative"
    | _ => validation_failed "name" "is required"
    end.
Proof.
  unfold fails_validation, name_missing, population_invalid.
  intros Hbad. simpl.
  destruct (Raw.name c) as [[|a n]|]; try reflexivity.
  simpl. destruct (Raw.population c) as [p|]; [|reflexivity].
  destruct Hbad as [[H|H]|H]; try discriminate.
  destruct (Z.ltb_spec p 0); [reflexivity | lia].
Qed.

Lemma refresh_loop_app l1 l2 tx g :
  refresh_loop ts rd (l1 ++ l2) tx g =
    match refresh_loop ts rd l1 tx g with
    | Returned (tx1, g1) => refresh_loop ts rd l2 tx1 g1
    | failed => failed
    end.
Proof.
  revert tx g. induction l1 as [|c l1 IH]; intros tx g; [reflexivity|].
  destruct (validation_cases c) as [Hbad | (n & p & Hn & Ht & Hp & Hle)].
  - simpl app.
    rewrite (refresh_loop_head_error c (l1 ++ l2) tx g Hbad).
    rewrite (refresh_loop_head_error c l1 tx g Hbad).
    destruct (Raw.name c) as [[|a n]|]; reflexivity.
  - simpl app.
    rewrite (refresh_loop_step ts rd c (l1 ++ l2) tx g n p Hn Ht Hp Hle).
    rewrite (refresh_loop_step ts rd c l1 tx g n p Hn Ht Hp Hle).
    destruct (currency_logic p (Raw.currencies c) rd g) as [r| |];
      [apply IH | reflexivity | reflexivity].
Qed.

Lemma upsert_keeps_id n g t m f :
  Store.rows t !! m = Some f ->
  exists f', Store.rows (Store.upsert n g t) !! m = Some f' /\
             Store.id f' = Store.id f.
Proof.
  intros Hm. destruct (decide (n = m)) as [-> | Hne].
  - unfold Store.upsert. rewrite Hm. simpl.
    rewrite lookup_insert_eq. eexists. split; reflexivity.
  - rewrite (upsert_lookup_ne n m g t Hne). eauto.
Qed.

Lemma upsert_dom n g t :
  dom (Store.rows (Store.upsert n g t)) = {[n]} ∪ dom (Store.rows t).
Proof.
  unfold Store.upsert. destruct (Store.rows t !! n); simpl; apply dom_insert_L.
Qed.

Lemma refresh_loop_ids cs :
  forall tx g tx' g',
    refresh_loop ts rd cs tx g = Returned (tx', g') ->
    forall m f, Store.rows tx !! m = Some f ->
    exists f', Store.rows tx' !! m = Some f' /\ Store.id f' = Store.id f.
Proof.
  induction cs as [|c rest IH]; intros tx g tx' g' Hret m f Hm.
  - simpl in Hret. injection Hret as <- _. eauto.
  - apply refresh_loop_returned_inv in Hret
      as (n & p & r & _ & _ & _ & _ & _ & Hret).
    destruct (upsert_keeps_id n (inserted_fields ts c p r.1) tx m f Hm)
      as (f1 & Hf1 & Hid1).
    destruct (IH _ _ _ _ Hret m f1 Hf1) as (f' & Hf' & Hid').
    exists f'. split; [assumption | congruence].
Qed.

Lemma refresh_loop_dom cs :
  forall tx g tx' g',
    refresh_loop ts rd cs tx g = Returned (tx', g') ->
    dom (Store.rows tx') = dom (Store.rows tx) ∪ batch_names cs.
Proof.
  induction cs as [|c rest IH]; intros tx g tx' g' Hret.
  - simpl in Hret. injection Hret as <- _.
    unfold batch_names. simpl. now rewrite (right_id_L ∅ (∪)).
  - apply refresh_loop_returned_inv in Hret
      as (n & p & r & Hn & _ & _ & _ & _ & Hret).
    rewrite (IH _ _ _ _ Hret), upsert_dom.
    assert (batch_names (c :: rest) = {[n]} ∪ batch_names rest) as ->.
    { unfold batch_names.
      change (omap Raw.name (c :: rest))
        with (match Raw.name c with
              | Some y => y :: omap Raw.name rest
              | None => omap Raw.name rest
              end).
      rewrite Hn. reflexivity. }
    rewrite (comm_L (∪) {[n]} (dom (Store.rows tx))).
    now rewrite (assoc_L (∪)).
Qed.

Lemma in_batch_names n cs : n ∈ batch_names cs <-> in_batch n cs.
Proof.
  unfold batch_names, in_batch.
  rewrite elem_of_list_to_set, list_elem_of_omap, list_elem_of_fmap.
  split.
  - intros (c & Hin & Hn). exists c. auto.
  - intros (c & Hn & Hin). exists c. auto.
Qed.

End RefreshLoopMore.

(** ** The stored columns of a batch row *)

(** A rate that passes [if exchange_rate:] is stored as a non-zero value. *)
Lemma of_number_nonzero rate :
  Py.truthy rate = true -> nonzero (Store.of_number rate).
Proof.
  destruct rate as [z | [s | s | | s m e]]; simpl; try discriminate; auto.
  - intros H Hq. apply negb_true_iff, Z.eqb_neq in H.
    unfold Qeq in Hq. simpl in Hq. lia.
  - destruct s; exact (fun _ => I).
  - intros _ Hq. rewrite Qred_correct in Hq.
    destruct s, e as [|p|p]; unfold Qeq in Hq; cbn [Qnum Qden inject_Z Qopp] in Hq;
      try (pose proof (Z.pow_pos_nonneg 2 (Zpos p) ltac:(lia) ltac:(lia)));
      try nia; try lia.
Qed.

Lemma inserted_exchange_rate ts c p rd g i r :
  currency_logic p (Raw.currencies c) rd g = Returned r ->
  let f := Store.set_id i (inserted_fields ts c p r.1) in
  Store.exchange_rate f = rate_lookup rd f.
Proof.
  intros Hcl. unfold rate_lookup. simpl.
  destruct (currency_logic_returned _ _ _ _ _ Hcl)
    as [(_ & _ & Hcode & Hrate)
       | (code & rate & Hcode & Ht & Hr & Hrate & _)].
  - rewrite Hrate.
    destruct Hcode as [-> | (code & -> & [-> | Hnone])]; try reflexivity.
    rewrite Hnone. destruct (Text.truthy code); reflexivity.
  - rewrite Hrate, Hcode, Ht, Hr. reflexivity.
Qed.

Lemma produced_row_ok ts rd c n f :
  Text.truthy n = true -> produced_from ts rd c n f -> row_ok n f.
Proof.
  intros Ht (Hn & p & g & i & r & Hp & Hle & Hcl & ->).
  split; [now apply truthy_nonempty|]. split; [exact Hle|].
  simpl. intros Hgdp.
  destruct (currency_logic_returned _ _ _ _ _ Hcl)
    as [(Hnone & _) | (code & rate & Hcode & _ & _ & Hrate & Hcases)].
  - rewrite Hnone in Hgdp. destruct Hgdp; discriminate.
  - destruct Hcases as [(_ & Hnone & _) | (Hz & _)].
    + rewrite Hnone in Hgdp. destruct Hgdp; discriminate.
    + split; [rewrite Hcode; eauto|].
      exists (Store.of_number rate). split; [rewrite Hrate; reflexivity|].
      now apply of_number_nonzero.
Qed.

(** The name of a produced row is a non-empty one. *)
Lemma refresh_loop_truthy_names ts rd cs :
  forall tx g tx' g',
    refresh_loop ts rd cs tx g = Returned (tx', g') ->
    forall n, in_batch n cs -> Text.truthy n = true.
Proof.
  induction cs as [|c rest IH]; intros tx g tx' g' Hret n Hin.
  - unfold in_batch in Hin. simpl in Hin. inversion Hin.
  - apply refresh_loop_returned_inv in Hret
      as (m & p & r & Hm & Ht & _ & _ & _ & Hret).
    apply in_batch_cons in Hin as [Hn | Hin].
    + congruence.
    + apply (IH _ _ _ _ Hret n Hin).
Qed.

Lemma refresh_loop_table_ok ts rd cs tx g tx' g' :
  refresh_loop ts rd cs tx g = Returned (tx', g') ->
  table_ok tx -> table_ok tx'.
Proof.
  intros Hret Hok n f Hf.
  destruct (decide (in_batch n cs)) as [Hin | Hout].
  - destruct (refresh_loop_produced _ _ _ _ _ _ _ Hret n Hin)
      as (c & f' & _ & Hf' & Hprod).
    rewrite Hf in Hf'. injection Hf' as <-.
    apply (produced_row_ok ts rd c n f); [|assumption].
    apply (refresh_loop_truthy_names _ _ _ _ _ _ _ Hret n Hin).
  - rewrite (refresh_loop_untouched _ _ _ _ _ _ _ Hret n Hout) in Hf.
    apply (Hok n f Hf).
Qed.

(** The committed table after a request is the old one or the result of the
    loop. *)
Lemma refresh_db_cases env w :
  db (refresh_countries env w).2 = db w \/
  exists cs rd g',
    rest_countries env = Some cs /\ exchange_rate_api env = Some rd /\
    refresh_loop (batch_timestamp env) rd cs (db w) (random env)
      = Returned (db (refresh_countries env w).2, g').
Proof.
  unfold refresh_countries, batch_timestamp.
  destruct (rest_countries env) as [cs|]; [|left; reflexivity].
  destruct (exchange_rate_api env) as [rd|]; [|left; reflexivity].
  destruct (refresh_loop _ rd cs (db w) (random env)) as [[tx' g']| |] eqn:Hloop;
    [|left; reflexivity..].
  right. exists cs, rd, g'. split; [reflexivity|]. split; [reflexivity|].
  destruct (save_summary _ (disk w)) as [[|] d]; exact Hloop.
Qed.

(** ** Errors of the refresh *)

(** X1. A refresh that raises an [HTTPException], whatever its status,
    leaves the committed table and the cached image as they were. *)
Theorem refresh_http_error_changes_nothing env w status detail :
  (refresh_countries env w).1 = HTTPException status detail ->
  (refresh_countries env w).2 = w.
Proof.
  unfold refresh_countries.
  destruct (rest_countries env) as [cs|]; [|reflexivity].
  destruct (exchange_rate_api env) as [rd|]; [|reflexivity].
  destruct (refresh_loop _ rd cs (db w) (random env)) as [[tx' g']| |];
    [|reflexivity..].
  destruct (save_summary _ (disk w)) as [[|] d]; discriminate.
Qed.

Lemma refresh_http_error_changes_nothing_witness :
  (refresh_countries (sample_env bad_batch sample_rates) (sample_world false)).2
  = sample_world false.
Proof.
  apply (refresh_http_error_changes_nothing
           (sample_env bad_batch sample_rates) (sample_world false) 400
           (ValidationDetail "Validation failed" "population"
                             "must be non-negative")).
  vm_compute. reflexivity.
Defined.

(** X2. The refresh answers 503 exactly when one of the two sources could
    not be fetched; the metadata source is reported first. *)
Theorem refresh_unavailable_iff env w :
  ((exists detail, (refresh_countries env w).1 = HTTPException 503 detail) <->
   rest_countries env = None \/ exchange_rate_api env = None) /\
  (rest_countries env = None ->
   (refresh_countries env w).1 =
     source_unavailable "Could not fetch data from Rest Countries").
Proof.
  unfold refresh_countries. split.
  - split.
    + intros [detail Hres].
      destruct (rest_countries env) as [cs|]; [|auto].
      destruct (exchange_rate_api env) as [rd|]; [|auto].
      exfalso.
      destruct (refresh_loop_outcome (Text.replace "+00:00" "Z" (utc_now env))
                  rd cs (db w) (random env))
        as [(tx' & g' & Heq) | [(field & reason & Heq) | Heq]];
        rewrite Heq in Hres.
      * destruct (save_summary _ (disk w)) as [[|] d]; discriminate.
      * discriminate.
      * discriminate.
    + intros [Hc | Hr].
      * rewrite Hc. eexists. reflexivity.
      * rewrite Hr. destruct (rest_countries env); eexists; reflexivity.
  - intros ->. reflexivity.
Qed.

(** X3. When the loop gets through the records before it, the first record
    of the list that fails validation decides the error: its name is checked
    before its population, and nothing is committed. *)
Theorem first_failing_record_decides env w (good : list Raw.country) c rest rd
    tx1 g1 :
  rest_countries env = Some (good ++ c :: rest)%list ->
  exchange_rate_api env = Some rd ->
  refresh_loop (batch_timestamp env) rd good (db w) (random env)
    = Returned (tx1, g1) ->
  fails_validation c ->
  (name_missing c ->
   refresh_countries env w = (validation_failed "name" "is required", w)) /\
  (~ name_missing c ->
   refresh_countries env w =
     (validation_failed "population" "must be non-negative", w)).
Proof.
  intros Hc Hr Hloop1 Hbad.
  assert (refresh_countries env w =
          (match Raw.name c with
           | Some (String _ _) =>
               validation_failed "population" "must be non-negative"
           | _ => validation_failed "name" "is required"
           end, w)) as Hres.
  { unfold refresh_countries, batch_timestamp in *. rewrite Hc, Hr.
    rewrite refresh_loop_app, Hloop1.
    rewrite (refresh_loop_head_error _ rd c rest tx1 g1 Hbad).
    destruct (Raw.name c) as [[|a n]|]; reflexivity. }
  rewrite Hres. unfold name_missing.
  destruct (Raw.name c) as [[|a n]|]; split; intros H; try reflexivity.
  - destruct H; auto.
  - destruct H as [H|H]; discriminate.
  - destruct H; auto.
Qed.

Lemma first_failing_record_decides_witness :
  (name_missing (sample_country "Atlantis" (-5) (Some "USD")) ->
   refresh_countries (sample_env bad_batch sample_rates) (sample_world false) =
     (validation_failed "name" "is required", sample_world false)) /\
  (~ name_missing (sample_country "Atlantis" (-5) (Some "USD")) ->
   refresh_countries (sample_env bad_batch sample_rates) (sample_world false) =
     (validation_failed "population" "must be non-negative",
      sample_world false)).
Proof.
  apply (first_failing_record_decides
           (sample_env bad_batch sample_rates) (sample_world false)
           [sample_country "Nigeria" 200 (Some "NGN")]
           (sample_country "Atlantis" (-5) (Some "USD")) [] sample_rates
           (Store.upsert "Nigeria" nigeria_row Store.empty_table)
           (fun n => sample_random (S n))
           eq_refl eq_refl).
  - vm_compute. reflexivity.
  - right. unfold population_invalid. simpl. lia.
Defined.

(** ** What a returning refresh stores *)

(** X4. A refresh removes no row and changes no id: every row of the old
    table is still there under its name, with the id it had. *)
Theorem refresh_keeps_rows_and_ids env w w' :
  refresh_countries env w = (Returned tt, w') ->
  forall n f,
    Store.rows (db w) !! n = Some f ->
    exists f', Store.rows (db w') !! n = Some f' /\ Store.id f' = Store.id f.
Proof.
  intros Hret.
  destruct (refresh_returned_sources env w w' Hret) as (cs & rd & Hc & Hr).
  destruct (refresh_returned_inv env w w' cs rd Hc Hr Hret) as [g' Hloop].
  apply (refresh_loop_ids _ _ _ _ _ _ _ Hloop).
Qed.

Lemma refresh_keeps_rows_and_ids_witness :
  exists f',
    Store.rows (db (refresh_countries (sample_env chad_twice sample_rates)
                      {| db := sample_table; disk := disk (sample_world false) |}).2)
      !! "Nigeria" = Some f' /\
    Store.id f' = Store.id nigeria_row.
Proof.
  apply (refresh_keeps_rows_and_ids
           (sample_env chad_twice sample_rates)
           {| db := sample_table; disk := disk (sample_world false) |}
           (refresh_countries (sample_env chad_twice sample_rates)
              {| db := sample_table; disk := disk (sample_world false) |}).2).
  - vm_compute. reflexivity.
  - vm_compute. reflexivity.
Defined.

(** X5. After a returning refresh the names of the table are the old names
    and the names of the batch, and nothing else. *)
Theorem refresh_names env w w' cs :
  rest_countries env = Some cs ->
  refresh_countries env w = (Returned tt, w') ->
  dom (Store.rows (db w')) = dom (Store.rows (db w)) ∪ batch_names cs.
Proof.
  intros Hc Hret.
  destruct (refresh_returned_sources env w w' Hret) as (cs' & rd & Hc' & Hr).
  assert (cs' = cs) as -> by congruence.
  destruct (refresh_returned_inv env w w' cs rd Hc Hr Hret) as [g' Hloop].
  apply (refresh_loop_dom _ _ _ _ _ _ _ Hloop).
Qed.

Lemma refresh_names_witness :
  dom (Store.rows sample_table) =
  dom (Store.rows (db (sample_world false))) ∪ batch_names sample_batch.
Proof.
  apply (refresh_names
           (sample_env sample_batch sample_rates) (sample_world false)
           (refresh_countries (sample_env sample_batch sample_rates)
                              (sample_world false)).2
           sample_batch eq_refl).
  vm_compute. reflexivity.
Defined.

(** X6. Whatever the outcome of a refresh, the table keeps its invariants:
    no empty name, no negative population, and an estimated GDP only beside
    a currency code and a non-zero exchange rate. *)
Theorem refresh_keeps_table_ok env w :
  table_ok (db w) -> table_ok (db (refresh_countries env w).2).
Proof.
  intros Hok.
  destruct (refresh_db_cases env w) as [-> | (cs & rd & g' & _ & _ & Hloop)];
    [assumption|].
  apply (refresh_loop_table_ok _ _ _ _ _ _ _ Hloop Hok).
Qed.

Lemma refresh_keeps_table_ok_witness : table_ok sample_table.
Proof.
  apply (refresh_keeps_table_ok
           (sample_env sample_batch sample_rates) (sample_world false)).
  intros n f Hf. vm_compute in Hf. discriminate.
Defined.

(** X7. When a name occurs more than once in the fetched list, the last
    record with that name is the one stored: the row has its capital, region,
    population and flag, and the timestamp of the batch. *)
Theorem last_record_wins env w w' (pre : list Raw.country) c post n :
  rest_countries env = Some (pre ++ c :: post)%list ->
  Raw.name c = Some n ->
  ~ in_batch n post ->
  refresh_countries env w = (Returned tt, w') ->
  exists f,
    Store.rows (db w') !! n = Some f /\
    Store.capital f = Raw.capital c /\
    Store.region f = Raw.region c /\
    Some (Store.population f) = Raw.population c /\
    Store.flag_url f = Raw.flag c /\
    Store.last_refreshed_at f = batch_timestamp env.
Proof.
  intros Hc Hn Hpost Hret.
  destruct (refresh_returned_sources env w w' Hret) as (cs & rd & Hc' & Hr).
  assert (cs = (pre ++ c :: post)%list) as -> by congruence.
  destruct (refresh_returned_inv env w w' _ rd Hc Hr Hret) as [g' Hloop].
  rewrite refresh_loop_app in Hloop.
  destruct (refresh_loop _ rd pre (db w) (random env)) as [[tx1 g1]| |];
    try discriminate.
  apply refresh_loop_returned_inv in Hloop
    as (m & p & r & Hm & _ & Hp & _ & _ & Hloop).
  assert (m = n) as -> by congruence.
  rewrite (refresh_loop_untouched _ _ _ _ _ _ _ Hloop n Hpost).
  destruct (upsert_lookup_eq n
              (inserted_fields (batch_timestamp env) c p r.1) tx1)
    as [i Hi].
  eexists. split; [exact Hi|]. simpl. rewrite Hp. auto.
Qed.

Lemma last_record_wins_witness :
  exists f,
    Store.rows (db (refresh_countries (sample_env chad_twice sample_rates)
                      (sample_world false)).2) !! "Chad" = Some f /\
    Store.capital f = None /\
    Store.region f = Some "Africa" /\
    Some (Store.population f) = Some 2 /\
    Store.flag_url f = None /\
    Store.last_refreshed_at f = "2025-01-01T00:00:00Z".
Proof.
  apply (last_record_wins
           (sample_env chad_twice sample_rates) (sample_world false)
           (refresh_countries (sample_env chad_twice sample_rates)
                              (sample_world false)).2
           [sample_country "Chad" 1 None]
           (sample_country "Chad" 2 (Some "USD"))
           [sample_country "Mali" 3 None] "Chad" eq_refl eq_refl).
  - unfold in_batch. simpl. intros H.
    apply elem_of_cons in H as [H | H]; [discriminate | inversion H].
  - vm_compute. reflexivity.
Defined.

(** X8. In every row that a returning refresh stores for its batch, a
    non-null estimated GDP is the float that Python's division gives for the
    stored population times a multiplier of 1000..2000 over the rate that
    the fetched table has under the row's currency code; that rate is not
    zero and is the stored exchange rate. *)
Theorem stored_gdp_formula env w w' cs rd n f q :
  rest_countries env = Some cs ->
  exchange_rate_api env = Some rd ->
  refresh_countries env w = (Returned tt, w') ->
  in_batch n cs ->
  Store.rows (db w') !! n = Some f ->
  Store.estimated_gdp f = Some q ->
  exists code rate m x,
    Store.currency_code f = Some code /\
    Raw.rates_or_empty rd !! code = Some rate /\ Py.truthy rate = true /\
    Store.exchange_rate f = Some (Store.of_number rate) /\
    1000 <= m <= 2000 /\
    Py.true_divide (Store.population f * m) rate = Returned x /\
    q = Store.of_float x.
Proof.
  intros Hc Hr Hret Hin Hf Hq.
  destruct (refresh_returned_inv env w w' cs rd Hc Hr Hret) as [g' Hloop].
  destruct (refresh_loop_produced _ _ _ _ _ _ _ Hloop n Hin)
    as (c & f' & _ & Hf' & _ & p & g & i & r & _ & _ & Hcl & ->).
  rewrite Hf in Hf'. injection Hf' as ->. simpl in Hq |- *.
  destruct (currency_logic_returned _ _ _ _ _ Hcl)
    as [(Hnone & _) | (code & rate & Hcode & _ & Hrate & Her & Hcases)];
    [rewrite Hnone in Hq; discriminate|].
  destruct Hcases as [(_ & Hnone & _) | (Hz & x & Hdiv & Hgdp & _)];
    [rewrite Hnone in Hq; discriminate|].
  exists code, rate, (randint 1000 2000 g).1, x.
  repeat (split; [assumption|]).
  rewrite Hgdp in Hq. injection Hq as <-.
  split; [rewrite Her; reflexivity|].
  split; [apply randint_range; lia|]. split; [assumption | reflexivity].
Qed.

Lemma stored_gdp_formula_witness :
  exists code rate m x,
    Store.currency_code nigeria_row = Some code /\
    Raw.rates_or_empty sample_rates !! code = Some rate /\
    Py.truthy rate = true /\
    Store.exchange_rate nigeria_row = Some (Store.of_number rate) /\
    1000 <= m <= 2000 /\
    Py.true_divide (Store.population nigeria_row * m) rate = Returned x /\
    Store.Fin (1003 # 8) = Store.of_float x.
Proof.
  apply (stored_gdp_formula
           (sample_env sample_batch sample_rates) (sample_world false)
           (refresh_countries (sample_env sample_batch sample_rates)
                              (sample_world false)).2
           sample_batch sample_rates "Nigeria" nigeria_row
           (Store.Fin (1003 # 8)) eq_refl eq_refl).
  - vm_compute. reflexivity.
  - unfold in_batch. simpl. left.
  - vm_compute. reflexivity.
  - reflexivity.
Defined.

(** X9. In every row that a returning refresh stores for its batch, the
    exchange rate is the entry of the fetched rate table under the row's
    currency code (zero rates included), and null when the code is null,
    empty or no key of the table. *)
Theorem stored_exchange_rate_is_lookup env w w' cs rd n f :
  rest_countries env = Some cs ->
  exchange_rate_api env = Some rd ->
  refresh_countries env w = (Returned tt, w') ->
  in_batch n cs ->
  Store.rows (db w') !! n = Some f ->
  Store.exchange_rate f = rate_lookup rd f.
Proof.
  intros Hc Hr Hret Hin Hf.
  destruct (refresh_returned_inv env w w' cs rd Hc Hr Hret) as [g' Hloop].
  destruct (refresh_loop_produced _ _ _ _ _ _ _ Hloop n Hin)
    as (c & f' & _ & Hf' & _ & p & g & i & r & _ & _ & Hcl & ->).
  rewrite Hf in Hf'. injection Hf' as ->.
  exact (inserted_exchange_rate _ c p rd g i r Hcl).
Qed.

Lemma stored_exchange_rate_is_lookup_witness :
  Store.exchange_rate nigeria_row = rate_lookup sample_rates nigeria_row.
Proof.
  apply (stored_exchange_rate_is_lookup
           (sample_env sample_batch sample_rates) (sample_world false)
           (refresh_countries (sample_env sample_batch sample_rates)
                              (sample_world false)).2
           sample_batch sample_rates "Nigeria" nigeria_row eq_refl eq_refl).
  - vm_compute. reflexivity.
  - unfold in_batch. simpl. left.
  - vm_compute. reflexivity.
Defined.

(** X10. Refreshing twice from the same metadata keeps the set of names and
    the id of every row: the second refresh adds no row. *)
Theorem refresh_twice_same_identity env1 env2 w w1 w2 :
  rest_countries env2 = rest_countries env1 ->
  refresh_countries env1 w = (Returned tt, w1) ->
  refresh_countries env2 w1 = (Returned tt, w2) ->
  dom (Store.rows (db w2)) = dom (Store.rows (db w1)) /\
  forall n f1,
    Store.rows (db w1) !! n = Some f1 ->
    exists f2, Store.rows (db w2) !! n = Some f2 /\ Store.id f2 = Store.id f1.
Proof.
  intros Hsame Hret1 Hret2.
  destruct (refresh_returned_sources env1 w w1 Hret1) as (cs & rd1 & Hc1 & Hr1).
  destruct (refresh_returned_sources env2 w1 w2 Hret2) as (cs2 & rd2 & Hc2 & Hr2).
  assert (cs2 = cs) as -> by congruence.
  destruct (refresh_returned_inv env1 w w1 cs rd1 Hc1 Hr1 Hret1) as [g1 Hloop1].
  destruct (refresh_returned_inv env2 w1 w2 cs rd2 Hc2 Hr2 Hret2) as [g2 Hloop2].
  split.
  - rewrite (refresh_loop_dom _ _ _ _ _ _ _ Hloop2).
    rewrite (refresh_loop_dom _ _ _ _ _ _ _ Hloop1).
    rewrite <- (assoc_L (∪)), (idemp_L (∪)). reflexivity.
  - apply (refresh_loop_ids _ _ _ _ _ _ _ Hloop2).
Qed.

Lemma refresh_twice_same_identity_witness :
  dom (Store.rows (db (refresh_countries (sample_env sample_batch rates_missing)
                         (refresh_countries
                            (sample_env sample_batch sample_rates)
                            (sample_world false)).2).2))
  = dom (Store.rows sample_table) /\
  forall n f1,
    Store.rows sample_table !! n = Some f1 ->
    exists f2,
      Store.rows (db (refresh_countries (sample_env sample_batch rates_missing)
                        (refresh_countries
                           (sample_env sample_batch sample_rates)
                           (sample_world false)).2).2) !! n
        = Some f2 /\
      Store.id f2 = Store.id f1.
Proof.
  apply (refresh_twice_same_identity
           (sample_env sample_batch sample_rates)
           (sample_env sample_batch rates_missing)
           (sample_world false)
           (refresh_countries (sample_env sample_batch sample_rates)
                              (sample_world false)).2
           (refresh_countries (sample_env sample_batch rates_missing)
              (refresh_countries (sample_env sample_batch sample_rates)
                                 (sample_world false)).2).2
           eq_refl).
  - vm_compute. reflexivity.
  - vm_compute. reflexivity.
Defined.
(** ** The summary report *)

#[local] Instance gdp_desc_transitive : Transitive Store.gdp_desc.
Proof.
  intros [n1 f1] [n2 f2] [n3 f3]. unfold Store.gdp_desc. simpl.
  intros H1 H2. exact (sql_le_trans _ _ _ H2 H1).
Qed.

Lemma top_gdp_unfold t :
  top_gdp t =
  omap report_line
       (take 5 (Store.order_by_gdp_desc (List.filter has_gdp (Store.select_all t)))).
Proof. reflexivity. Qed.

Lemma gdp_rows_sorted t :
  StronglySorted Store.gdp_desc
    (Store.order_by_gdp_desc (List.filter has_gdp (Store.select_all t))).
Proof. apply StronglySorted_merge_sort; apply _. Qed.

Lemma elem_of_gdp_rows t (r : Store.row) :
  r ∈ Store.order_by_gdp_desc (List.filter has_gdp (Store.select_all t)) <->
  Store.rows t !! r.1 = Some r.2 /\ is_Some (Store.estimated_gdp r.2).
Proof.
  unfold Store.order_by_gdp_desc. rewrite merge_sort_Permutation.
  rewrite list_elem_of_In, filter_In, <- list_elem_of_In.
  unfold Store.select_all. destruct r as [n f].
  rewrite (elem_of_map_to_list (Store.rows t) n f).
  unfold has_gdp. simpl.
  destruct (Store.estimated_gdp f); split; intros [H1 H2]; split; eauto;
    try discriminate. destruct H2; discriminate.
Qed.

Lemma report_line_Some r n q :
  report_line r = Some (n, q) <-> r.1 = n /\ Store.estimated_gdp r.2 = Some q.
Proof.
  unfold report_line. destruct (Store.estimated_gdp r.2); simpl; split;
    intros H; try discriminate; try (destruct H; discriminate).
  - injection H as <- <-. auto.
  - destruct H as [<- H]. injection H as <-. reflexivity.
Qed.

Lemma length_report_lines l :
  Forall (fun r : Store.row => is_Some (Store.estimated_gdp r.2)) l ->
  length (omap report_line l) = length l.
Proof.
  induction 1 as [|r l [q Hq] _ IH]; [reflexivity|].
  change (omap report_line (r :: l))
    with (match report_line r with
          | Some y => y :: omap report_line l
          | None => omap report_line l
          end).
  unfold report_line at 1. rewrite Hq. simpl. now rewrite IH.
Qed.

Lemma report_lines_sorted l :
  StronglySorted Store.gdp_desc l ->
  StronglySorted gdp_ge (omap report_line l).
Proof.
  induction 1 as [|r l Hs IH Hall]; [constructor|].
  change (omap report_line (r :: l))
    with (match report_line r with
          | Some y => y :: omap report_line l
          | None => omap report_line l
          end).
  destruct (report_line r) as [[n q]|] eqn:Hr; [|exact IH].
  constructor; [exact IH|].
  apply Forall_forall. intros [n' q'] Hin.
  apply list_elem_of_omap in Hin as (r' & Hin' & Hr').
  rewrite Forall_forall in Hall. specialize (Hall r' Hin').
  apply report_line_Some in Hr as [_ Hq], Hr' as [_ Hq'].
  unfold Store.gdp_desc in Hall. rewrite Hq, Hq' in Hall.
  exact Hall.
Qed.

(** X11. The report lists [min 5 k] countries, [k] being the number of rows
    with an estimated GDP; every line is the name and the estimated GDP of a
    stored row, and the lines come in descending order of estimated GDP. *)
Theorem top_gdp_lines t :
  length (top_gdp t) =
    Nat.min 5 (length (List.filter has_gdp (Store.select_all t))) /\
  (forall n q, (n, q) ∈ top_gdp t ->
     exists f, Store.rows t !! n = Some f /\ Store.estimated_gdp f = Some q) /\
  StronglySorted gdp_ge (top_gdp t).
Proof.
  rewrite top_gdp_unfold.
  pose proof (gdp_rows_sorted t) as Hsorted.
  set (L := Store.order_by_gdp_desc (List.filter has_gdp (Store.select_all t)))
    in *.
  assert (Forall (fun r : Store.row => is_Some (Store.estimated_gdp r.2)) L)
    as Hall.
  { apply Forall_forall. intros r Hr. now apply elem_of_gdp_rows in Hr. }
  split; [|split].
  - rewrite length_report_lines by now apply Forall_take.
    rewrite length_take. f_equal.
    unfold L, Store.order_by_gdp_desc.
    now rewrite merge_sort_Permutation.
  - intros n q Hin.
    apply list_elem_of_omap in Hin as (r & Hr & Hline).
    apply report_line_Some in Hline as [<- Hq].
    assert (r ∈ L) as HrL.
    { rewrite <- (take_drop 5 L). apply elem_of_app. now left. }
    apply elem_of_gdp_rows in HrL as [Hrow _]. eauto.
  - apply report_lines_sorted.
    rewrite <- (take_drop 5 L) in Hsorted.
    now apply StronglySorted_app_1_l in Hsorted.
Qed.

(** X12. The countries of the report are the top ones: a stored row with an
    estimated GDP that is not listed has an estimated GDP no larger than that
    of any line. *)
Theorem top_gdp_is_top t n q n' f' q' :
  (n, q) ∈ top_gdp t ->
  Store.rows t !! n' = Some f' ->
  Store.estimated_gdp f' = Some q' ->
  (n', q') ∉ top_gdp t ->
  Store.numeric_le q' q.
Proof.
  rewrite top_gdp_unfold. intros Hin Hrow Hq' Hout.
  pose proof (gdp_rows_sorted t) as Hsorted.
  set (L := Store.order_by_gdp_desc (List.filter has_gdp (Store.select_all t)))
    in *.
  apply list_elem_of_omap in Hin as (r & Hr & Hline).
  apply report_line_Some in Hline as [_ Hq].
  assert ((n', f') ∈ L) as Hin'.
  { apply elem_of_gdp_rows. simpl. split; [assumption | eauto]. }
  rewrite <- (take_drop 5 L) in Hin', Hsorted.
  apply elem_of_app in Hin' as [Htake | Hdrop].
  - exfalso. apply Hout. apply list_elem_of_omap.
    exists (n', f'). split; [assumption|].
    apply report_line_Some. auto.
  - pose proof (StronglySorted_app_1_elem_of _ _ _ _ _ Hsorted Hr Hdrop) as Hle.
    unfold Store.gdp_desc in Hle. simpl in Hle.
    rewrite Hq, Hq' in Hle. exact Hle.
Qed.

Lemma top_gdp_is_top_witness :
  Store.numeric_le (Store.Fin (1003 # 1)) (Store.Fin (2008 # 1)).
Proof.
  apply (top_gdp_is_top seven_table "B" (Store.Fin (2008 # 1)) "A" row_a
           (Store.Fin (1003 # 1))).
  - vm_compute. repeat constructor.
  - vm_compute. reflexivity.
  - reflexivity.
  - intros H. vm_compute in H.
    repeat (apply elem_of_cons in H as [H | H]; [discriminate|]).
    inversion H.
Defined.

Lemma draw_top_lookup l : forall y (i : nat) n q,
  l !! i = Some (n, q) ->
  draw_top y l !! i =
    Some {| xy := (50, y + 25 * Z.of_nat i);
            text := [Str n; Str ": "; Num (round2 q)]; fill := "black" |}.
Proof.
  induction l as [|[n0 q0] l IH]; intros y i n q Hi; [discriminate|].
  destruct i as [|i].
  - injection Hi as -> ->.
    replace (y + 25 * Z.of_nat 0) with y by lia. reflexivity.
  - change (draw_top (y + 25) l !! i = Some
              {| xy := (50, y + 25 * Z.of_nat (S i));
                 text := [Str n; Str ": "; Num (round2 q)]; fill := "black" |}).
    replace (y + 25 * Z.of_nat (S i)) with (y + 25 + 25 * Z.of_nat i) by lia.
    now apply IH.
Qed.

Lemma length_draw_top y l : length (draw_top y l) = length l.
Proof.
  revert y. induction l as [|[n q] l IH]; intros y; simpl; [|rewrite IH];
    reflexivity.
Qed.

(** X13. The image has three heading texts, one text per line of the
    report and the footer; the [i]-th line of the report is drawn at
    [(50, 175 + 25 i)], above the footer at [(50, 320)]. *)
Theorem summary_image_layout t ts :
  length (drawn (summary_image t ts)) = (4 + length (top_gdp t))%nat /\
  (forall (i : nat) n q,
     top_gdp t !! i = Some (n, q) ->
     175 + 25 * Z.of_nat i < 320 /\
     drawn (summary_image t ts) !! (3 + i)%nat =
       Some {| xy := (50, 175 + 25 * Z.of_nat i);
               text := [Str n; Str ": "; Num (round2 q)]; fill := "black" |}) /\
  drawn (summary_image t ts) !! (3 + length (top_gdp t))%nat =
    Some {| xy := (50, 320); text := [Str "Last Refreshed At: "; Str ts];
            fill := "black" |}.
Proof.
  unfold summary_image. cbn [drawn].
  split; [|split].
  - rewrite !length_app, length_draw_top. simpl. lia.
  - intros i n q Hi. split.
    + apply lookup_lt_Some in Hi.
      destruct (top_gdp_lines t) as [Hlen _]. lia.
    + simpl. rewrite lookup_app_l
        by (rewrite length_draw_top; now apply lookup_lt_Some in Hi).
      now apply draw_top_lookup.
  - simpl. rewrite lookup_app_r by (rewrite length_draw_top; lia).
    rewrite length_draw_top, Nat.sub_diag. reflexivity.
Qed.

(** X14. After a returning refresh the image endpoint serves the summary of
    the table just committed, stamped with the timestamp of the batch. *)
Theorem image_served_after_refresh env w w' :
  refresh_countries env w = (Returned tt, w') ->
  serve_country_image (disk w') =
    Returned (Png (summary_image (db w') (batch_timestamp env))).
Proof.
  intros Hret.
  destruct (refresh_returned_sources env w w' Hret) as (cs & rd & Hc & Hr).
  destruct (refresh_returned_inv env w w' cs rd Hc Hr Hret) as [g' Hloop].
  rewrite (refresh_after_loop env w cs rd (db w') g' Hc Hr Hloop) in Hret.
  destruct (save_summary _ (disk w)) as [[|] d] eqn:Hsave; [|discriminate].
  injection Hret as <-. simpl. unfold serve_country_image.
  rewrite (save_summary_saved _ _ _ Hsave). reflexivity.
Qed.

Lemma image_served_after_refresh_witness :
  serve_country_image
    (disk (refresh_countries (sample_env sample_batch sample_rates)
                             (sample_world false)).2) =
  Returned (Png (summary_image sample_table "2025-01-01T00:00:00Z")).
Proof.
  apply (image_served_after_refresh
           (sample_env sample_batch sample_rates) (sample_world false)
           (refresh_countries (sample_env sample_batch sample_rates)
                              (sample_world false)).2).
  vm_compute. reflexivity.
Defined.

(** ** The filters and the sort of the listing *)

Lemma select_where_spec cond l l' :
  Store.select_where cond l = Some l' ->
  forall r, r ∈ l' <-> r ∈ l /\ cond r = Text.LikeTrue.
Proof.
  intros Hsel r. split; [now apply select_where_elem|].
  revert l' Hsel. induction l as [|x l IH]; intros l' Hsel [Hin Hc].
  - inversion Hin.
  - simpl in Hsel. destruct (cond x) eqn:Hx; [| |discriminate].
    + destruct (Store.select_where cond l) as [l0|]; [|discriminate].
      simpl in Hsel. injection Hsel as <-.
      apply elem_of_cons in Hin as [-> | Hin]; [left|].
      right. apply (IH l0 eq_refl). auto.
    + apply elem_of_cons in Hin as [-> | Hin]; [congruence|].
      apply (IH l' Hsel). auto.
Qed.

Lemma run_query_app q1 q2 l :
  run_query (q1 ++ q2) l =
    match run_query q1 l with
    | Some l1 => run_query q2 l1
    | None => None
    end.
Proof.
  revert l. induction q1 as [|c q1 IH]; intros l; [reflexivity|].
  simpl. destruct (run_clause c l); [apply IH | reflexivity].
Qed.

Lemma run_region_clause region l l1 :
  run_query (region_clause region) l = Some l1 ->
  forall r : Store.row,
    r ∈ l1 <->
    r ∈ l /\
    (truthy_param region = true ->
     exists p, region = Some p /\
               ilike_column (Store.region r.2) p = Text.LikeTrue).
Proof.
  unfold region_clause, truthy_param.
  destruct region as [p|]; [destruct (Text.truthy p)|]; simpl.
  - destruct (Store.select_where _ l) as [l0|] eqn:Hsel; [|discriminate].
    intros [= <-] r. rewrite (select_where_spec _ _ _ Hsel r).
    split; intros [Hin H]; (split; [assumption|]).
    + intros _. eauto.
    + destruct (H eq_refl) as (p' & [= <-] & Hp). assumption.
  - intros [= <-] r. split; [intros H; split; [assumption | discriminate]|tauto].
  - intros [= <-] r. split; [intros H; split; [assumption | discriminate]|tauto].
Qed.

Lemma run_currency_clause currency l l1 :
  run_query (currency_clause currency) l = Some l1 ->
  forall r : Store.row,
    r ∈ l1 <->
    r ∈ l /\
    (truthy_param currency = true ->
     exists p, currency = Some p /\
               ilike_column (Store.currency_code r.2) p = Text.LikeTrue).
Proof.
  unfold currency_clause, truthy_param.
  destruct currency as [p|]; [destruct (Text.truthy p)|]; simpl.
  - destruct (Store.select_where _ l) as [l0|] eqn:Hsel; [|discriminate].
    intros [= <-] r. rewrite (select_where_spec _ _ _ Hsel r).
    split; intros [Hin H]; (split; [assumption|]).
    + intros _. eauto.
    + destruct (H eq_refl) as (p' & [= <-] & Hp). assumption.
  - intros [= <-] r. split; [intros H; split; [assumption | discriminate]|tauto].
  - intros [= <-] r. split; [intros H; split; [assumption | discriminate]|tauto].
Qed.

Lemma run_sort_clause sort l :
  run_query (sort_clause sort) l =
    Some (if String.eqb (Text.lower (default "" sort)) "gdp_desc"
          then Store.order_by_gdp_desc l
          else if String.eqb (Text.lower (default "" sort)) "gdp_asc"
               then Store.order_by_gdp_asc l
               else l).
Proof.
  destruct sort as [s|]; [|reflexivity].
  rewrite sort_clause_cases. simpl.
  destruct (String.eqb (Text.lower s) "gdp_desc"); [reflexivity|].
  destruct (String.eqb (Text.lower s) "gdp_asc"); reflexivity.
Qed.

(** The rows fetched: the filtered rows, then the sort. *)
Lemma fetch_countries_stages region currency sort t l :
  fetch_countries region currency sort t = Some l ->
  exists l1 l2,
    run_query (region_clause region) (Store.select_all t) = Some l1 /\
    run_query (currency_clause currency) l1 = Some l2 /\
    run_query (sort_clause sort) l2 = Some l.
Proof.
  unfold fetch_countries, build_query.
  destruct (truthy_param region || truthy_param currency || truthy_param sort)
    eqn:Hany.
  - rewrite run_query_app.
    destruct (run_query (region_clause region) _) as [l1|];
      [|intros H; discriminate H].
    rewrite run_query_app.
    destruct (run_query (currency_clause currency) l1) as [l2|] eqn:Hcur;
      [|intros H; discriminate H].
    intros H. exists l1, l2. auto.
  - apply orb_false_iff in Hany as [Hany Hs].
    apply orb_false_iff in Hany as [Hr Hc].
    intros [= <-]. exists (Store.select_all t), (Store.select_all t).
    unfold truthy_param, region_clause, currency_clause, sort_clause in *.
    destruct region as [r|]; [rewrite Hr|];
      (destruct currency as [c|]; [rewrite Hc|]);
      (destruct sort as [s|]; [rewrite Hs|]); auto.
Qed.

Lemma fetch_countries_sort region currency sort t :
  fetch_countries region currency sort t =
    match fetch_countries region currency None t with
    | Some l2 => run_query (sort_clause sort) l2
    | None => None
    end.
Proof.
  unfold fetch_countries, build_query.
  assert (sort_clause None = []) as -> by reflexivity.
  rewrite app_nil_r. rewrite !orb_false_r.
  destruct (truthy_param region || truthy_param currency) eqn:Hany; simpl.
  - rewrite app_assoc. apply run_query_app.
  - apply orb_false_iff in Hany as [Hr Hc].
    assert (region_clause region = []) as ->.
    { unfold region_clause, truthy_param in *.
      destruct region as [r|]; [rewrite Hr|]; reflexivity. }
    assert (currency_clause currency = []) as ->.
    { unfold currency_clause, truthy_param in *.
      destruct currency as [c|]; [rewrite Hc|]; reflexivity. }
    simpl. destruct (truthy_param sort) eqn:Hs; [reflexivity|].
    unfold sort_clause, truthy_param in *.
    destruct sort as [s|]; [rewrite Hs|]; reflexivity.
Qed.

Lemma listing_returned region currency sort t l :
  get_countries_with_filtering region currency sort t = Returned l <->
  fetch_countries region currency sort t = Some l /\ l <> [].
Proof.
  unfold get_countries_with_filtering, not_found.
  destruct (fetch_countries region currency sort t) as [[|r l0]|]; split;
    try discriminate; try (intros [H _]; discriminate).
  - intros [[= <-] H]. contradiction.
  - intros [= <-]. split; [reflexivity | discriminate].
  - intros [[= <-] _]. reflexivity.
Qed.

#[local] Instance gdp_asc_total : Total Store.gdp_asc.
Proof.
  intros [n1 f1] [n2 f2]. unfold Store.gdp_asc. simpl. apply sql_le_total.
Qed.

#[local] Instance gdp_asc_transitive : Transitive Store.gdp_asc.
Proof.
  intros [n1 f1] [n2 f2] [n3 f3]. unfold Store.gdp_asc. simpl.
  apply sql_le_trans.
Qed.

(** X15. For filter values without a quote or NUL character, the listing
    returns exactly the stored rows that pass every filter supplied (the
    filters are conjunctive), and never an empty list. *)
Theorem listing_rows region currency sort t l :
  quote_free region -> quote_free currency ->
  get_countries_with_filtering region currency sort t = Returned l ->
  l <> [] /\
  forall r : Store.row,
    r ∈ l <->
    Store.rows t !! r.1 = Some r.2 /\ passes_filters region currency r.
Proof.
  intros _ _ Hret. apply listing_returned in Hret as [Hfetch Hne].
  split; [assumption|]. intros r.
  destruct (fetch_countries_stages region currency sort t l Hfetch)
    as (l1 & l2 & H1 & H2 & H3).
  rewrite run_sort_clause in H3. injection H3 as <-.
  assert (r ∈ (if String.eqb (Text.lower (default "" sort)) "gdp_desc"
               then Store.order_by_gdp_desc l2
               else if String.eqb (Text.lower (default "" sort)) "gdp_asc"
                    then Store.order_by_gdp_asc l2 else l2) <-> r ∈ l2) as ->.
  { unfold Store.order_by_gdp_desc, Store.order_by_gdp_asc.
    destruct (String.eqb _ "gdp_desc"); [now rewrite merge_sort_Permutation|].
    destruct (String.eqb _ "gdp_asc"); [now rewrite merge_sort_Permutation|].
    reflexivity. }
  rewrite (run_currency_clause currency l1 l2 H2 r).
  rewrite (run_region_clause region _ l1 H1 r).
  unfold Store.select_all, passes_filters. destruct r as [n f].
  rewrite (elem_of_map_to_list (Store.rows t) n f). simpl. tauto.
Qed.

Lemma listing_rows_witness :
  [ ("Nigeria", nigeria_row) ] <> [] /\
  forall r : Store.row,
    r ∈ [ ("Nigeria", nigeria_row) ] <->
    Store.rows sample_table !! r.1 = Some r.2 /\
    passes_filters (Some "AFRICA") (Some "ngn") r.
Proof.
  apply (listing_rows (Some "AFRICA") (Some "ngn") None sample_table).
  - split; reflexivity.
  - split; reflexivity.
  - vm_compute. reflexivity.
Defined.

(** X16. For filter values without a quote or NUL character, a [sort] value
    never adds or drops a row: the listing is a permutation of the listing
    of the same filters without [sort]. *)
Theorem sort_only_reorders region currency sort t l :
  quote_free region -> quote_free currency ->
  get_countries_with_filtering region currency sort t = Returned l ->
  exists l0,
    get_countries_with_filtering region currency None t = Returned l0 /\
    l ≡ₚ l0.
Proof.
  intros _ _ Hret. apply listing_returned in Hret as [Hfetch Hne].
  rewrite fetch_countries_sort in Hfetch.
  destruct (fetch_countries region currency None t) as [l0|] eqn:Hf0;
    [|discriminate].
  rewrite run_sort_clause in Hfetch. injection Hfetch as <-.
  exists l0.
  assert ((if String.eqb (Text.lower (default "" sort)) "gdp_desc"
           then Store.order_by_gdp_desc l0
           else if String.eqb (Text.lower (default "" sort)) "gdp_asc"
                then Store.order_by_gdp_asc l0 else l0) ≡ₚ l0) as Hperm.
  { unfold Store.order_by_gdp_desc, Store.order_by_gdp_asc.
    destruct (String.eqb _ "gdp_desc"); [apply merge_sort_Permutation|].
    destruct (String.eqb _ "gdp_asc"); [apply merge_sort_Permutation|].
    reflexivity. }
  split; [|exact Hperm].
  apply listing_returned. split; [exact Hf0|].
  intros ->. apply Permutation_nil_r in Hperm. contradiction.
Qed.

Lemma sort_only_reorders_witness :
  exists l0,
    get_countries_with_filtering None None None sample_table = Returned l0 /\
    [ ("Nigeria", nigeria_row); ("USA", usa_row);
      ("Wakanda", wakanda_row); ("Zed", zed_row) ] ≡ₚ l0.
Proof.
  apply (sort_only_reorders None None (Some "GDP_Asc") sample_table).
  - exact I.
  - exact I.
  - vm_compute. reflexivity.
Defined.

(** X17. For filter values without a quote or NUL character, with
    [sort=gdp_asc], in any letter case, the rows come in ascending order of
    estimated GDP, the rows without one last. *)
Theorem gdp_asc_sorted_nulls_last region currency s t l :
  quote_free region -> quote_free currency ->
  Text.lower s = "gdp_asc" ->
  get_countries_with_filtering region currency (Some s) t = Returned l ->
  StronglySorted Store.gdp_asc l.
Proof.
  intros _ _ Hs Hret. apply listing_returned in Hret as [Hfetch _].
  rewrite fetch_countries_sort in Hfetch.
  destruct (fetch_countries region currency None t) as [l0|]; [|discriminate].
  rewrite run_sort_clause in Hfetch. simpl in Hfetch. rewrite Hs in Hfetch.
  simpl in Hfetch. injection Hfetch as <-.
  apply StronglySorted_merge_sort; apply _.
Qed.

Lemma gdp_asc_sorted_nulls_last_witness :
  StronglySorted Store.gdp_asc
    [ ("Nigeria", nigeria_row); ("USA", usa_row);
      ("Wakanda", wakanda_row); ("Zed", zed_row) ].
Proof.
  apply (gdp_asc_sorted_nulls_last None None "GDP_Asc" sample_table).
  - exact I.
  - exact I.
  - reflexivity.
  - vm_compute. reflexivity.
Defined.

Lemma unrecognised_sort_ignored_sample :
  get_countries_with_filtering (Some "africa") None (Some "population") sample_table
  = get_countries_with_filtering (Some "africa") None None sample_table.
Proof.
  apply (unrecognised_sort_ignored (Some "africa") None "population" sample_table);
    discriminate.
Defined.

(** ** The status endpoint *)

Lemma string_compare_trans_le s1 : forall s2 s3,
  String.compare s1 s2 <> Gt -> String.compare s2 s3 <> Gt ->
  String.compare s1 s3 <> Gt.
Proof.
  induction s1 as [|a s1 IH]; intros [|b s2] [|c s3]; simpl; try congruence.
  unfold Ascii.compare.
  destruct (N.compare_spec (N_of_ascii a) (N_of_ascii b)) as [Hab|Hab|Hab];
    destruct (N.compare_spec (N_of_ascii b) (N_of_ascii c)) as [Hbc|Hbc|Hbc];
    destruct (N.compare_spec (N_of_ascii a) (N_of_ascii c)) as [Hac|Hac|Hac];
    try congruence; try lia; intros H1 H2; try congruence.
  now apply (IH s2 s3).
Qed.

Lemma string_leb_trans s1 s2 s3 :
  String.leb s1 s2 = true -> String.leb s2 s3 = true -> String.leb s1 s3 = true.
Proof.
  unfold String.leb. intros H1 H2.
  pose proof (string_compare_trans_le s1 s2 s3) as H.
  destruct (String.compare s1 s2); try discriminate;
    destruct (String.compare s2 s3); try discriminate;
    destruct (String.compare s1 s3); try reflexivity;
    exfalso; apply H; congruence.
Qed.

Lemma string_leb_refl s : String.leb s s = true.
Proof. destruct (String.leb_total s s); assumption. Qed.

Lemma max_timestamp_spec l :
  match max_timestamp l with
  | None => l = []
  | Some m =>
      (exists r, r ∈ l /\ Store.last_refreshed_at r.2 = m) /\
      forall r, r ∈ l -> String.leb (Store.last_refreshed_at r.2) m = true
  end.
Proof.
  induction l as [|x l IH]; simpl; [reflexivity|].
  destruct (max_timestamp l) as [m|].
  - destruct IH as [(r & Hr & Hm) Hall].
    destruct (String.leb (Store.last_refreshed_at x.2) m) eqn:Hle.
    + split; [exists r; split; [now right | assumption]|].
      intros y Hy. apply elem_of_cons in Hy as [-> | Hy]; auto.
    + split; [exists x; split; [left | reflexivity]|].
      intros y Hy. apply elem_of_cons in Hy as [-> | Hy];
        [apply string_leb_refl|].
      apply (string_leb_trans _ m); [now apply Hall|].
      destruct (String.leb_total (Store.last_refreshed_at x.2) m); congruence.
  - subst l. split; [exists x; split; [left | reflexivity]|].
    intros y Hy. apply elem_of_cons in Hy as [-> | Hy];
      [apply string_leb_refl | inversion Hy].
Qed.

(** X19. [/status] reports no timestamp exactly when it counts no country;
    otherwise the timestamp is that of a stored row and no stored row has a
    later one (in the order of text). *)
Theorem status_last_refresh t :
  (status_last_refreshed_at (get_status t) = None <->
   total_countries (get_status t) = 0) /\
  forall m,
    status_last_refreshed_at (get_status t) = Some m ->
    (exists n f, Store.rows t !! n = Some f /\ Store.last_refreshed_at f = m) /\
    forall n f, Store.rows t !! n = Some f ->
                String.leb (Store.last_refreshed_at f) m = true.
Proof.
  unfold get_status. cbn [status_last_refreshed_at total_countries].
  change (max_last_refreshed_at t) with (max_timestamp (Store.select_all t)).
  pose proof (max_timestamp_spec (Store.select_all t)) as Hspec.
  assert (Store.count t = Z.of_nat (length (Store.select_all t))) as Hcount.
  { unfold Store.count, Store.select_all. f_equal.
    symmetry. apply (length_map_to_list (Store.rows t)). }
  destruct (max_timestamp (Store.select_all t)) as [m|].
  - destruct Hspec as [([n f] & Hr & Hm) Hall]. split.
    + split; [discriminate|]. intros H0. rewrite Hcount in H0.
      destruct (Store.select_all t); [inversion Hr | discriminate].
    + intros m' [= <-]. split.
      * exists n, f. split; [|exact Hm].
        now apply (elem_of_map_to_list (Store.rows t) n f).
      * intros n' f' Hf'. apply (Hall (n', f')).
        now apply (elem_of_map_to_list (Store.rows t) n' f').
  - split; [|discriminate].
    rewrite Hcount, Hspec. split; reflexivity.
Qed.

(** ** The timestamp of a batch *)

Lemma replace_utc_offset s :
  has_char "+" s = false ->
  Text.replace "+00:00" "Z" (s +:+ "+00:00") = s +:+ "Z".
Proof.
  unfold Text.replace. induction s as [|c s IH]; intros Hs.
  - reflexivity.
  - simpl in Hs. apply orb_false_iff in Hs as [Hc Hs].
    change (String c s +:+ "+00:00") with (String c (s +:+ "+00:00")).
    change (String c s +:+ "Z") with (String c (s +:+ "Z")).
    cbn [Text.replace_from Text.drop_prefix].
    rewrite (Ascii.eqb_sym "+" c), Hc. f_equal. now apply IH.
Qed.

(** X20. When the clock reads [s+00:00] (and [s] has no other [+]), every
    row that a returning refresh stores for its batch carries [sZ]. *)
Theorem stored_timestamp_ends_in_z env w w' cs s n f :
  rest_countries env = Some cs ->
  utc_now env = s +:+ "+00:00" ->
  has_char "+" s = false ->
  refresh_countries env w = (Returned tt, w') ->
  in_batch n cs ->
  Store.rows (db w') !! n = Some f ->
  Store.last_refreshed_at f = s +:+ "Z".
Proof.
  intros Hc Hnow Hs Hret Hin Hf.
  destruct (refresh_returned_sources env w w' Hret) as (cs' & rd & Hc' & Hr).
  assert (cs' = cs) as -> by congruence.
  destruct (refresh_returned_inv env w w' cs rd Hc Hr Hret) as [g' Hloop].
  destruct (refresh_loop_produced _ _ _ _ _ _ _ Hloop n Hin)
    as (c & f' & _ & Hf' & _ & p & g & i & r & _ & _ & _ & ->).
  rewrite Hf in Hf'. injection Hf' as ->. simpl.
  unfold batch_timestamp. rewrite Hnow. now apply replace_utc_offset.
Qed.

Lemma stored_timestamp_ends_in_z_witness :
  Store.last_refreshed_at nigeria_row = "2025-01-01T00:00:00" +:+ "Z".
Proof.
  apply (stored_timestamp_ends_in_z
           (sample_env sample_batch sample_rates) (sample_world false)
           (refresh_countries (sample_env sample_batch sample_rates)
                              (sample_world false)).2
           sample_batch "2025-01-01T00:00:00" "Nigeria" nigeria_row
           eq_refl eq_refl eq_refl).
  - vm_compute. reflexivity.
  - unfold in_batch. simpl. left.
  - vm_compute. reflexivity.
Defined.

(** ** Lookup after a refresh *)

(** X21. After a returning refresh, every record of the batch whose name
    has no pattern character is found by name: the lookup returns a stored
    row whose name equals it up to letter case. *)
Theorem lookup_after_refresh env w w' cs c n :
  rest_countries env = Some cs ->
  refresh_countries env w = (Returned tt, w') ->
  c ∈ cs -> Raw.name c = Some n ->
  Text.has_meta n = false ->
  exists r,
    get_country_by_name n (db w') = Returned r /\
    Store.rows (db w') !! r.1 = Some r.2 /\
    Text.lower r.1 = Text.lower n.
Proof.
  intros Hc Hret Hin Hn Hm.
  destruct (refresh_returned_sources env w w' Hret) as (cs' & rd & Hc' & Hr).
  assert (cs' = cs) as -> by congruence.
  destruct (refresh_returned_inv env w w' cs rd Hc Hr Hret) as [g' Hloop].
  assert (in_batch n cs) as Hb.
  { unfold in_batch. apply list_elem_of_fmap. exists c. auto. }
  destruct (refresh_loop_produced _ _ _ _ _ _ _ Hloop n Hb)
    as (c' & f & _ & Hf & _).
  unfold get_country_by_name.
  destruct (select_where_total (fun r : Store.row => Text.ilike r.1 n)
              (Store.select_all (db w'))) as [l Hsel].
  { intros r. now apply ilike_plain_no_error. }
  rewrite Hsel. destruct l as [|r l].
  - exfalso.
    assert (Text.ilike n n = Text.LikeFalse) as Hfalse.
    { apply (select_where_none _ _ Hsel (n, f)).
      now apply (elem_of_map_to_list (Store.rows (db w')) n f). }
    apply (ilike_plain_false n n Hm) in Hfalse. congruence.
  - exists r. split; [reflexivity|].
    destruct (select_where_elem _ _ _ r Hsel) as [Hr' Hlike]; [left|].
    split.
    + destruct r as [n' f'].
      now apply (elem_of_map_to_list (Store.rows (db w')) n' f') in Hr'.
    + now apply (ilike_plain_true r.1 n Hm).
Qed.

Lemma lookup_after_refresh_witness :
  exists r,
    get_country_by_name "USA" sample_table = Returned r /\
    Store.rows sample_table !! r.1 = Some r.2 /\
    Text.lower r.1 = Text.lower "USA".
Proof.
  apply (lookup_after_refresh
           (sample_env sample_batch sample_rates) (sample_world false)
           (refresh_countries (sample_env sample_batch sample_rates)
                              (sample_world false)).2
           sample_batch (sample_country "USA" 300 (Some "USD")) "USA" eq_refl).
  - vm_compute. reflexivity.
  - right. left.
  - reflexivity.
  - reflexivity.
Defined.

Lemma like_match_percent s : Text.like_match "%" s = Text.LikeTrue.
Proof. induction s as [|c s IH]; [reflexivity | exact IH]. Qed.

Lemma select_where_all cond l :
  (forall r, cond r = Text.LikeTrue) -> Store.select_where cond l = Some l.
Proof.
  intros Hall. induction l as [|x l IH]; [reflexivity|].
  simpl. rewrite Hall, IH. reflexivity.
Qed.

(** X22. The name of a lookup is used as a pattern: the lookup of [%]
    returns a stored row whenever the table has one, and answers 404 only on
    the empty table. *)
Theorem wildcard_lookup t :
  (Store.rows t = ∅ ->
   get_country_by_name "%" t = not_found "Country not found") /\
  (Store.rows t <> ∅ ->
   exists r, get_country_by_name "%" t = Returned r /\
             Store.rows t !! r.1 = Some r.2).
Proof.
  unfold get_country_by_name.
  rewrite (select_where_all (fun r : Store.row => Text.ilike r.1 "%"))
    by (intros r; apply like_match_percent).
  unfold Store.select_all. split.
  - intros ->. rewrite map_to_list_empty. reflexivity.
  - intros Hne.
    destruct (map_to_list (Store.rows t)) as [|[n f] l] eqn:Hl.
    + apply map_to_list_empty_iff in Hl. contradiction.
    + exists (n, f). split; [reflexivity|].
      apply (elem_of_map_to_list (Store.rows t) n f). rewrite Hl. left.
Qed.

(** X23. After a returning refresh of a non-empty list, [/status] counts at
    least one country and reports a timestamp that is not before the one of
    the batch (in the order of text). *)
Theorem status_after_refresh env w w' c cs :
  rest_countries env = Some (c :: cs) ->
  refresh_countries env w = (Returned tt, w') ->
  0 < total_countries (get_status (db w')) /\
  exists m,
    status_last_refreshed_at (get_status (db w')) = Some m /\
    String.leb (batch_timestamp env) m = true.
Proof.
  intros Hc Hret.
  destruct (refresh_returned_sources env w w' Hret) as (cs' & rd & Hc' & Hr).
  assert (cs' = c :: cs) as -> by congruence.
  destruct (refresh_returned_inv env w w' _ rd Hc Hr Hret) as [g' Hloop].
  destruct (refresh_loop_names _ _ _ _ _ _ _ Hloop c) as (n & Hn & Hb); [left|].
  destruct (refresh_loop_produced _ _ _ _ _ _ _ Hloop n Hb)
    as (c' & f & _ & Hf & _ & p & g & i & r & _ & _ & _ & Heq).
  assert ((n, f) ∈ Store.select_all (db w')) as Hin.
  { now apply (elem_of_map_to_list (Store.rows (db w')) n f). }
  unfold get_status. cbn [status_last_refreshed_at total_countries].
  split.
  - unfold Store.count.
    rewrite <- (length_map_to_list (Store.rows (db w'))).
    unfold Store.select_all in Hin.
    destruct (map_to_list (Store.rows (db w'))); [inversion Hin | simpl; lia].
  - change (max_last_refreshed_at (db w'))
      with (max_timestamp (Store.select_all (db w'))).
    pose proof (max_timestamp_spec (Store.select_all (db w'))) as Hspec.
    destruct (max_timestamp (Store.select_all (db w'))) as [m|].
    + exists m. split; [reflexivity|].
      destruct Hspec as [_ Hall]. specialize (Hall (n, f) Hin).
      rewrite Heq in Hall. exact Hall.
    + rewrite Hspec in Hin. inversion Hin.
Qed.

Lemma status_after_refresh_witness :
  0 < total_countries (get_status sample_table) /\
  exists m,
    status_last_refreshed_at (get_status sample_table) = Some m /\
    String.leb "2025-01-01T00:00:00Z" m = true.
Proof.
  apply (status_after_refresh
           (sample_env sample_batch sample_rates) (sample_world false)
           (refresh_countries (sample_env sample_batch sample_rates)
                              (sample_world false)).2
           (sample_country "Nigeria" 200 (Some "NGN"))
           [ sample_country "USA" 300 (Some "USD");
             sample_country "Wakanda" 5 (Some "XYZ");
             sample_country "Zed" 7 (Some "ZZZ") ] eq_refl).
  vm_compute. reflexivity.
Defined.
